(** * BGG hotness dashboard (streamlit_bgg.py): data preparation and view logic

    A shallow embedding of [load_and_prepare_data], [safe_get_user_data],
    [graph_section] and [hotness_table_section].

    Conventions of the embedding.
    - A data frame is the list of its rows, in frame order.  Row labels (the
      pandas index) are left out: every label-aligned operation of the program
      (column assignment, boolean masks) is applied to a series that was
      derived from the very frame it is applied to, so alignment is positional.
    - The [date] column holds calendar days; a day is its day number in [Z],
      and [pd.Timedelta(days=1)] is [+ 1].
    - [views_diff] is a float column in pandas; it only ever holds differences
      and sums of integers, so it is an integer here.
    - A name is the string of its UTF-8 bytes; the apostrophe is byte 39.
    - A missing value (NaN, NaT) is [None].
    - Widgets return either what the user picked or their default. *)

From Stdlib Require Import ZArith List String Ascii Bool Lia.
From Stdlib Require Import Permutation Sorted.
From Stdlib Require DecimalString.
Import ListNotations.

Local Open Scope string_scope.
Local Open Scope Z_scope.

(** ** Frames *)

(** One line of the CSV file, columns as in the file's schema. *)
Record RawRow := mkRawRow {
  raw_game_id : Z;
  raw_date : Z;
  raw_name : string;
  raw_year : Z;
  raw_rank : Z;
  raw_views : Z
}.

(** One row of the frame once the [views_diff] column has been added. *)
Record Row := mkRow {
  game_id : Z;
  date : Z;
  name : string;
  year : Z;
  rank : Z;
  views : Z;
  views_diff : Z
}.

Definition DataFrame := list Row.

Definition raw_of (r : Row) : RawRow :=
  mkRawRow (game_id r) (date r) (name r) (year r) (rank r) (views r).

(** ** pandas primitives used by the program *)

(** [Series.str.replace("'", "", regex=False)] on one value. *)
Fixpoint str_replace_apostrophe (s : string) : string :=
  match s with
  | EmptyString => EmptyString
  | String c s' =>
      if Ascii.eqb c "'"%char then str_replace_apostrophe s'
      else String c (str_replace_apostrophe s')
  end.

(** Line 13: [df["name"] = df["name"].str.replace("'", "", regex=False)]. *)
Definition sanitize_name (r : RawRow) : RawRow :=
  mkRawRow (raw_game_id r) (raw_date r) (str_replace_apostrophe (raw_name r))
           (raw_year r) (raw_rank r) (raw_views r).

(** [sort_values]: a stable sort by the order [leb].  The sort on several
    columns is stable in pandas; for the sort on one column the order among
    equal keys is left to numpy, and nothing below depends on it. *)
Fixpoint insert_sorted {A : Type} (leb : A -> A -> bool) (x : A) (l : list A)
  : list A :=
  match l with
  | [] => [x]
  | y :: l' => if leb x y then x :: y :: l' else y :: insert_sorted leb x l'
  end.

Definition sort_values {A : Type} (leb : A -> A -> bool) (l : list A) : list A :=
  fold_right (insert_sorted leb) [] l.

(** The order of [by=["game_id", "date"]]: lexicographic. *)
Definition game_date_leb (a b : RawRow) : bool :=
  (raw_game_id a <? raw_game_id b)
  || ((raw_game_id a =? raw_game_id b) && (raw_date a <=? raw_date b)).

(** [df.groupby("game_id")["views"].diff()]: each row's views minus the views
    of the previous row of the same game in frame order; NaN where there is
    none.  [last] maps a game to the views of its latest row so far. *)
Definition set_last (last : Z -> option Z) (g v : Z) : Z -> option Z :=
  fun g' => if g' =? g then Some v else last g'.

Fixpoint groupby_diff_from (last : Z -> option Z) (df : list RawRow)
  : list (option Z) :=
  match df with
  | [] => []
  | r :: df' =>
      option_map (fun v => raw_views r - v) (last (raw_game_id r))
      :: groupby_diff_from (set_last last (raw_game_id r) (raw_views r)) df'
  end.

Definition groupby_diff (df : list RawRow) : list (option Z) :=
  groupby_diff_from (fun _ => None) df.

Definition fillna (v : Z) (col : list (option Z)) : list Z :=
  map (fun x => match x with Some y => y | None => v end) col.

(** [df["views_diff"] = col]. *)
Definition add_views_diff (r : RawRow) (d : Z) : Row :=
  mkRow (raw_game_id r) (raw_date r) (raw_name r) (raw_year r) (raw_rank r)
        (raw_views r) d.

Definition assign_views_diff (df : list RawRow) (col : list Z) : DataFrame :=
  map (fun p => add_views_diff (fst p) (snd p)) (combine df col).

(** [Series.min()] and [Series.max()]; NaT on an empty column. *)
Definition series_min (col : list Z) : option Z :=
  match col with
  | [] => None
  | x :: col' => Some (fold_left Z.min col' x)
  end.

Definition series_max (col : list Z) : option Z :=
  match col with
  | [] => None
  | x :: col' => Some (fold_left Z.max col' x)
  end.

(** ** Data preparation *)

(** Lines 12-15: the frame sorted by (game_id, date) with its [views_diff]
    column, before the cutoff. *)
Definition sorted_frame (csv : list RawRow) : list RawRow :=
  sort_values game_date_leb (map sanitize_name csv).

Definition diffed_frame (csv : list RawRow) : DataFrame :=
  let df := sorted_frame csv in
  assign_views_diff df (fillna 0 (groupby_diff df)).

(** Line 18: [df["date"].min() + pd.Timedelta(days=1)], over the whole frame. *)
Definition cutoff_date (df : DataFrame) : option Z :=
  option_map (fun m => m + 1) (series_min (map date df)).

(** Line 19: [df[df["date"] >= cutoff_date]]; a comparison with NaT is false. *)
Definition filter_cutoff (cutoff : option Z) (df : DataFrame) : DataFrame :=
  match cutoff with
  | Some c => filter (fun r => c <=? date r) df
  | None => []
  end.

Definition load_and_prepare_data (csv : list RawRow) : DataFrame :=
  let df := diffed_frame csv in
  filter_cutoff (cutoff_date df) df.






(** ** More pandas primitives, for the views *)

(** [drop_duplicates(subset=...)], [unique()]: the first row of every key is
    kept, in frame order. *)
Fixpoint drop_duplicates {A K : Type} (key : A -> K) (eqb : K -> K -> bool)
  (l : list A) : list A :=
  match l with
  | [] => []
  | x :: l' =>
      x :: filter (fun y => negb (eqb (key x) (key y))) (drop_duplicates key eqb l')
  end.

Definition row_eqb (a b : Row) : bool :=
  (game_id a =? game_id b) && (date a =? date b) && String.eqb (name a) (name b)
  && (year a =? year b) && (rank a =? rank b) && (views a =? views b)
  && (views_diff a =? views_diff b).

(** [Series.isin(values)]. *)
Definition isin_name (values : list string) (s : string) : bool :=
  existsb (String.eqb s) values.

Definition isin_rank (values : list Z) (k : Z) : bool :=
  existsb (Z.eqb k) values.

Definition rank_leb (a b : Row) : bool := rank a <=? rank b.

Definition sum_views_diff (df : DataFrame) : Z :=
  fold_right Z.add 0 (map views_diff df).

(** A pivoted table: row labels, column labels, one list of cells per row
    label with one cell per column label. *)
Record Pivot (V : Type) := mkPivot {
  pv_index : list Z;
  pv_columns : list string;
  pv_cells : list (list V)
}.
Arguments mkPivot {V}.
Arguments pv_index {V}.
Arguments pv_columns {V}.
Arguments pv_cells {V}.

Definition cell_rows (df : DataFrame) (d : Z) (n : string) : DataFrame :=
  filter (fun r => (date r =? d) && String.eqb (name r) n) df.

(** [aggfunc="sum"] over the rows of one (date, name) pair; a pair without rows
    has no group, and its cell is NaN. *)
Definition agg_sum (rows : DataFrame) : option Z :=
  match rows with
  | [] => None
  | _ :: _ => Some (sum_views_diff rows)
  end.

(** [df.pivot_table(index="date", columns="name", values="views_diff",
    aggfunc="sum")]: the dates and the names that occur, each sorted. *)
Definition pivot_table (df : DataFrame) : Pivot (option Z) :=
  let idx := sort_values Z.leb (drop_duplicates (fun d => d) Z.eqb (map date df)) in
  let cols :=
    sort_values String.leb (drop_duplicates (fun n => n) String.eqb (map name df)) in
  mkPivot idx cols
    (map (fun d => map (fun n => agg_sum (cell_rows df d n)) cols) idx).

Definition pivot_fillna (v : Z) (p : Pivot (option Z)) : Pivot Z :=
  mkPivot (pv_index p) (pv_columns p) (map (fillna v) (pv_cells p)).




(** Columns of the prepared frame, and the value a row has in each. *)
Inductive Column :=
  ColGameId | ColDate | ColName | ColYear | ColRank | ColViews | ColViewsDiff.

Inductive Cell := NumCell (z : Z) | StrCell (s : string).

Definition cell_of (r : Row) (c : Column) : Cell :=
  match c with
  | ColGameId => NumCell (game_id r)
  | ColDate => NumCell (date r)
  | ColName => StrCell (name r)
  | ColYear => NumCell (year r)
  | ColRank => NumCell (rank r)
  | ColViews => NumCell (views r)
  | ColViewsDiff => NumCell (views_diff r)
  end.

(** [df[[c1; ...; cn]]]. *)
Definition select_columns (cols : list Column) (df : DataFrame) : list (list Cell) :=
  map (fun r => map (cell_of r) cols) df.

(** [astype(str)] on an integer. *)
Definition str_of_Z (z : Z) : string :=
  DecimalString.NilZero.string_of_int (Z.to_int z).

(** ** What a run puts on the page *)

Inductive Mode := ByGame | ByRank.

Inductive Message :=
  | Text (s : string)
  | NoDataFoundFor (single_day : Z)
  | HotnessFor (single_day : Z).

Inductive ColorEncoding := ColorByHighlight | ColorByRank.

(** A row of the frame given to altair: the frame's columns and [highlight]. *)
Record TaggedRow := mkTagged {
  tagged_row : Row;
  highlight : string
}.

(** [chart + highlight_chart]: the line layer, one line per rank, and the
    overlay of the highlighted games, one line per name. *)
Record LayeredChart := mkLayered {
  rank_layer : list TaggedRow;
  rank_layer_color : ColorEncoding;
  highlight_layer : list TaggedRow
}.

Inductive UICmd :=
  | Title (s : string)
  | Header (s : string)
  | Subheader (s : string)
  | SidebarSubheader (s : string)
  | SidebarError (s : string)
  | Warning (m : Message)
  | Write (m : Message)
  | LineChart (data : Pivot Z) (color : option (list string))
  | AltairChart (chart : LayeredChart)
  | Dataframe (cols : list Column) (cells : list (list Cell)).

(** Values of the widgets in one run: [None] for a widget the user has not
    touched, which then returns its default; a button is [true] in the run its
    click triggers. *)
Record Widgets := mkWidgets {
  w_mode : option Mode;
  w_final_titan : option bool;
  w_mindbug : option bool;
  w_agent_avenue : option bool;
  w_start_date : option Z;
  w_end_date : option Z;
  w_games_select_all : bool;
  w_games_none : bool;
  w_games_top7 : bool;
  w_games_top15 : bool;
  w_games : option (list string);
  w_ranks_select_all : bool;
  w_ranks_select_none : bool;
  w_ranks_select_default : bool;
  w_ranks : option (list Z);
  w_single_day : option Z
}.

(** [st.session_state]: a key that is not set is [None]. *)
Record SessionState := mkSession {
  selected_games : option (list string);
  selected_ranks : option (list Z)
}.

Definition widget {A : Type} (default : A) (pick : option A) : A :=
  match pick with
  | Some v => v
  | None => default
  end.

Definition msg_start_after_end : string :=
  "Start date cannot be after end date. Please adjust your selection.".
Definition msg_no_games : Message :=
  Text "No games selected. Please pick at least one game from the sidebar.".
Definition msg_no_ranks : Message :=
  Text "No ranks selected. Please pick at least one rank from the sidebar.".

Definition is_nonempty {A : Type} (l : list A) : bool :=
  match l with
  | [] => false
  | _ :: _ => true
  end.

(** ** View controller *)

(** Lines 24-37.  The pickers' bounds limit what the user can pick; they do
    not change a value, and a start date after the end date can be picked.
    On an empty frame the two pickers would get NaT as value and bounds; such
    a run is not followed further, and the result is [None]. *)
Definition safe_get_user_data (df : DataFrame) (w : Widgets)
  : option (Z * Z * list UICmd) :=
  match series_min (map date df), series_max (map date df) with
  | Some min_date, Some max_date =>
      let start_date := widget min_date (w_start_date w) in
      let end_date := widget max_date (w_end_date w) in
      Some (start_date, end_date,
            if end_date <? start_date then [SidebarError msg_start_after_end]
            else [])
  | _, _ => None
  end.

(** Lines 59-70. *)
Definition highlighted_games (w : Widgets) : list string :=
  (if widget true (w_final_titan w) then ["Final Titan"] else [])
  ++ (if widget false (w_mindbug w) then ["Mindbug"] else [])
  ++ (if widget false (w_agent_avenue w) then ["Agent Avenue"] else []).

(** Lines 75-76. *)
Definition filter_dates (start_date end_date : Z) (df : DataFrame) : DataFrame :=
  filter (fun r => (start_date <=? date r) && (date r <=? end_date)) df.

(** [df.drop_duplicates(subset="name").sort_values("rank")["name"].tolist()]. *)
Definition names_by_rank (df : DataFrame) : list string :=
  map name (sort_values rank_leb (drop_duplicates name String.eqb df)).

(** Line 81. *)
Definition all_games_list (df : DataFrame) : list string := names_by_rank df.

(** Line 82. *)
Definition most_recent_games (df : DataFrame) (end_date : Z) : list string :=
  names_by_rank (filter (fun r => date r =? end_date) df).

(** Lines 84-97: the session's selection after the default and the buttons. *)
Definition games_session (df : DataFrame) (end_date : Z) (w : Widgets)
  (st : SessionState) : list string :=
  let s0 := widget (firstn 7 (most_recent_games df end_date)) (selected_games st) in
  let s1 := if w_games_select_all w then all_games_list df else s0 in
  let s2 := if w_games_none w then [] else s1 in
  let s3 := if w_games_top7 w then firstn 7 (most_recent_games df end_date) else s2 in
  if w_games_top15 w then firstn 15 (most_recent_games df end_date) else s3.

(** Lines 99-106: the multiselect's value extended by the highlighted games. *)
Definition effective_games (df : DataFrame) (end_date : Z) (w : Widgets)
  (st : SessionState) : list string :=
  (widget (games_session df end_date w st) (w_games w) ++ highlighted_games w)%list.

(** Lines 108-116. *)
Definition games_selected (df_filtered : DataFrame) (selected : list string)
  : DataFrame :=
  filter (fun r => isin_name selected (name r)) df_filtered.

Definition pivoted (df_filtered : DataFrame) (selected : list string) : Pivot Z :=
  pivot_fillna 0 (pivot_table (games_selected df_filtered selected)).

(** Lines 120-129. *)
Definition line_colors (hl : list string) (p : Pivot Z) : option (list string) :=
  if is_nonempty hl then
    Some (map (fun col => if isin_name hl col then "#FF0000" else "#AAAAAA")
              (pv_columns p))
  else None.

Definition by_game (df df_filtered : DataFrame) (end_date : Z) (w : Widgets)
  (st : SessionState) : list UICmd * SessionState :=
  let selected := effective_games df end_date w st in
  let st' := mkSession (Some (games_session df end_date w st)) (selected_ranks st) in
  if is_nonempty selected then
    let p := pivoted df_filtered selected in
    ([Subheader "Number of Page Views per Game";
      LineChart p (line_colors (highlighted_games w) p)], st')
  else ([Warning msg_no_games], st').

(** Line 142. *)
Definition all_ranks (df : DataFrame) : list Z :=
  sort_values Z.leb (drop_duplicates (fun k => k) Z.eqb (map rank df)).

Definition default_ranks : list Z := [1; 2; 3; 4; 5; 6; 7; 8; 9; 10].

(** Lines 143-153. *)
Definition ranks_session (df : DataFrame) (w : Widgets) (st : SessionState)
  : list Z :=
  let s0 := widget default_ranks (selected_ranks st) in
  let s1 := if w_ranks_select_all w then all_ranks df else s0 in
  let s2 := if w_ranks_select_none w then [] else s1 in
  if w_ranks_select_default w then default_ranks else s2.

(** Lines 164-168: [pd.concat([by rank, by highlighted name]).drop_duplicates()]. *)
Definition ranks_selected (df_filtered : DataFrame) (sel : list Z)
  (hl : list string) : DataFrame :=
  drop_duplicates (fun r => r) row_eqb
    (filter (fun r => isin_rank sel (rank r)) df_filtered
     ++ filter (fun r => isin_name hl (name r)) df_filtered).

(** Lines 170-175. *)
Definition tag_highlight (hl : list string) (r : Row) : TaggedRow :=
  mkTagged r
    (if is_nonempty hl then
       if isin_name hl (name r) then "Highlighted" else "Normal"
     else str_of_Z (rank r)).

(** Lines 182-221. *)
Definition rank_chart (df_filtered : DataFrame) (sel : list Z) (hl : list string)
  : LayeredChart :=
  let df_selected := map (tag_highlight hl) (ranks_selected df_filtered sel hl) in
  mkLayered
    (filter (fun t => isin_rank sel (rank (tagged_row t))) df_selected)
    (if is_nonempty hl then ColorByHighlight else ColorByRank)
    (filter (fun t => isin_name hl (name (tagged_row t))) df_selected).

Definition by_rank (df df_filtered : DataFrame) (w : Widgets) (st : SessionState)
  : list UICmd * SessionState :=
  let session := ranks_session df w st in
  let sel := widget session (w_ranks w) in
  let st' := mkSession (selected_games st) (Some session) in
  if is_nonempty sel then
    ([Subheader "Number of Page Views per Rank";
      AltairChart (rank_chart df_filtered sel (highlighted_games w))], st')
  else ([Warning msg_no_ranks], st').

(** Lines 42-226, on the prepared frame [df]. *)
Definition graph_section (df : DataFrame) (w : Widgets) (st : SessionState)
  : option (list UICmd * SessionState) :=
  match safe_get_user_data df w with
  | None => None
  | Some (start_date, end_date, errors) =>
      let df_filtered := filter_dates start_date end_date df in
      let (out, st') :=
        match widget ByGame (w_mode w) with
        | ByGame => by_game df df_filtered end_date w st
        | ByRank => by_rank df df_filtered w st
        end in
      Some (([Title "BGG Hotness Daily Views – By Game or By Rank";
              SidebarSubheader "Highlight Your Games"]
             ++ errors ++ out)%list, st')
  end.

Definition table_columns : list Column :=
  [ColRank; ColGameId; ColName; ColYear; ColViews; ColViewsDiff].

(** Lines 241-247: the picker's value; [None] on an empty frame, as above. *)
Definition single_day (df : DataFrame) (w : Widgets) : option Z :=
  match series_max (map date df), series_min (map date df) with
  | Some max_date, Some _ => Some (widget max_date (w_single_day w))
  | _, _ => None
  end.

(** Lines 250-254. *)
Definition df_single_day (df : DataFrame) (day : Z) : DataFrame :=
  sort_values rank_leb (filter (fun r => date r =? day) df).

(** Lines 231-265. *)
Definition hotness_table_section (df : DataFrame) (w : Widgets)
  : option (list UICmd) :=
  match single_day df w with
  | None => None
  | Some day =>
      let rows := df_single_day df day in
      Some (Header "View of old Hotness List"
            :: (if is_nonempty rows then
                  [Write (HotnessFor day);
                   Dataframe table_columns (select_columns table_columns rows)]
                else [Warning (NoDataFoundFor day)]))
  end.

(** Lines 267-270: one run of the script on the content of the CSV file. *)
Definition run (csv : list RawRow) (w : Widgets) (st : SessionState)
  : option (list UICmd * SessionState) :=
  let df := load_and_prepare_data csv in
  match graph_section df w st, hotness_table_section df w with
  | Some (out, st'), Some table => Some ((out ++ table)%list, st')
  | _, _ => None
  end.

(** ** Notions used to state the properties *)

(** The order of the sort on (game_id, date), on rows of the frame. *)
Definition game_date_le (a b : Row) : Prop :=
  game_id a < game_id b \/ (game_id a = game_id b /\ date a <= date b).

Definition rank_le (a b : Row) : Prop := rank a <= rank b.

(** The first difference of one series, its first element set to 0. *)
Fixpoint diffs_from (prev : Z) (l : list Z) : list Z :=
  match l with
  | [] => []
  | x :: l' => (x - prev) :: diffs_from x l'
  end.

Definition first_difference (l : list Z) : list Z :=
  match l with
  | [] => []
  | x :: l' => 0 :: diffs_from x l'
  end.

(** The rows of one game, in frame order. *)
Definition rows_of_game (g : Z) (df : DataFrame) : DataFrame :=
  filter (fun r => game_id r =? g) df.

(** The first row of the frame that bears the name [n]. *)
Definition first_row (df : DataFrame) (n : string) : option Row :=
  find (fun r => String.eqb (name r) n) df.

Definition has_apostrophe (s : string) : Prop :=
  In "'"%char (list_ascii_of_string s).

Definition is_chart (c : UICmd) : bool :=
  match c with
  | LineChart _ _ | AltairChart _ => true
  | _ => false
  end.



(** The file of the scenario: two games over three days, as scraped day by
    day; the second game has an apostrophe in its name. *)
Definition two_games_three_days : list RawRow :=
  [ mkRawRow 1 1 "Azul" 2017 1 100; mkRawRow 2 1 "King's Hall" 2021 2 50;
    mkRawRow 2 2 "King's Hall" 2021 1 80; mkRawRow 1 2 "Azul" 2017 2 120;
    mkRawRow 1 3 "Azul" 2017 1 135; mkRawRow 2 3 "King's Hall" 2021 2 95 ].




(** A file with a highlighted game at rank 5. *)
Definition with_final_titan : list RawRow :=
  [ mkRawRow 1 1 "Azul" 2017 1 10; mkRawRow 2 1 "Brass" 2018 2 10;
    mkRawRow 3 1 "Catan" 1995 3 10; mkRawRow 4 1 "Final Titan" 2024 5 10;
    mkRawRow 1 2 "Azul" 2017 1 25; mkRawRow 2 2 "Brass" 2018 2 22;
    mkRawRow 3 2 "Catan" 1995 3 14; mkRawRow 4 2 "Final Titan" 2024 5 17 ].

(** The first run of a session: no widget touched, nothing in the session. *)
Definition untouched : Widgets :=
  mkWidgets None None None None None None false false false false None
            false false false None None.

(** A run in which the user has set the start date after the end date. *)
Definition inverted_range : Widgets :=
  mkWidgets None None None None (Some 3) (Some 2) false false false false None
            false false false None None.

(** A run in By Game mode with the multiselect emptied. *)
Definition no_game_picked : Widgets :=
  mkWidgets (Some ByGame) None None None None None false false false false
            (Some []) false false false None None.

Definition fresh_session : SessionState := mkSession None None.


Definition empty_pivot : Pivot Z := mkPivot [] [] [].

(** ** Further runs used as instances *)

(** By Game mode, the multiselect emptied and every highlight switched off. *)
Definition nothing_selected : Widgets :=
  mkWidgets (Some ByGame) (Some false) None None None None
            false false false false (Some [])
            false false false None None.


(** A file with ten games on two days, at the ranks 1 to 10. *)
Definition ten_games : list RawRow :=
  flat_map (fun k => [mkRawRow k 1 ("Game " ++ str_of_Z k) 2020 k 10;
                      mkRawRow k 2 ("Game " ++ str_of_Z k) 2020 k 25])
           default_ranks.

(** No button is clicked in the run. *)
Definition no_button (w : Widgets) : Prop :=
  w_games_select_all w = false /\ w_games_none w = false
  /\ w_games_top7 w = false /\ w_games_top15 w = false
  /\ w_ranks_select_all w = false /\ w_ranks_select_none w = false
  /\ w_ranks_select_default w = false.

(** Within every game, views never decrease as the date grows. *)
Definition views_monotone (csv : list RawRow) : Prop :=
  forall a b, In a csv -> In b csv ->
    raw_game_id a = raw_game_id b -> raw_date a <= raw_date b ->
    raw_views a <= raw_views b.

(** * Properties *)

(** ** Sorting *)

Section SortValues.
Context {A : Type} (leb : A -> A -> bool).

Let le (a b : A) : Prop := leb a b = true.

Lemma insert_sorted_perm (x : A) (l : list A) :
  Permutation (insert_sorted leb x l) (x :: l).
Proof.
  induction l as [|y l IH]; simpl.
  - apply Permutation_refl.
  - destruct (leb x y).
    + apply Permutation_refl.
    + apply perm_trans with (y :: x :: l).
      * now apply perm_skip.
      * apply perm_swap.
Qed.

Lemma sort_values_perm (l : list A) : Permutation (sort_values leb l) l.
Proof.
  induction l as [|x l IH]; simpl.
  - apply perm_nil.
  - apply perm_trans with (x :: sort_values leb l).
    + apply insert_sorted_perm.
    + now apply perm_skip.
Qed.

Lemma sort_values_In (x : A) (l : list A) :
  In x (sort_values leb l) <-> In x l.
Proof.
  split; apply Permutation_in;
    [ | apply Permutation_sym ]; apply sort_values_perm.
Qed.

Lemma sort_values_nil (l : list A) : sort_values leb l = [] -> l = [].
Proof.
  intros H. apply Permutation_nil.
  rewrite <- H. apply sort_values_perm.
Qed.

Hypothesis leb_total : forall a b, leb a b = false -> leb b a = true.

Lemma insert_sorted_sorted (x : A) (l : list A) :
  Sorted le l -> Sorted le (insert_sorted leb x l).
Proof.
  induction l as [|y l IH]; simpl; intros Hs.
  - repeat constructor.
  - destruct (leb x y) eqn:Hxy.
    + constructor; [assumption | constructor; exact Hxy].
    + inversion Hs as [|? ? Hl Hhd]; subst.
      constructor; [now apply IH|].
      destruct l as [|z l]; simpl.
      * constructor. now apply leb_total.
      * destruct (leb x z); constructor.
        -- now apply leb_total.
        -- now inversion Hhd.
Qed.

Lemma sort_values_sorted (l : list A) : Sorted le (sort_values leb l).
Proof.
  induction l as [|x l IH]; simpl.
  - constructor.
  - now apply insert_sorted_sorted.
Qed.

Hypothesis leb_trans :
  forall a b c, leb a b = true -> leb b c = true -> leb a c = true.

Lemma sort_values_strongly_sorted (l : list A) :
  StronglySorted le (sort_values leb l).
Proof.
  apply Sorted_StronglySorted.
  - intros a b c. apply leb_trans.
  - apply sort_values_sorted.
Qed.
End SortValues.

Lemma Permutation_filter {A : Type} (f : A -> bool) (l l' : list A) :
  Permutation l l' -> Permutation (filter f l) (filter f l').
Proof.
  induction 1 as [|x l l' _ IH|x y l|l l' l'' _ IH1 _ IH2]; simpl.
  - apply perm_nil.
  - destruct (f x); [now apply perm_skip | exact IH].
  - destruct (f x), (f y);
      try apply perm_swap; apply Permutation_refl.
  - now apply perm_trans with (filter f l').
Qed.

Lemma StronglySorted_filter {A : Type} (R : A -> A -> Prop) (f : A -> bool)
  (l : list A) : StronglySorted R l -> StronglySorted R (filter f l).
Proof.
  induction 1 as [|x l Hs IH Hall]; simpl.
  - constructor.
  - destruct (f x); [|exact IH].
    constructor; [exact IH|].
    rewrite Forall_forall in *. intros y Hy.
    apply Hall. now apply filter_In in Hy.
Qed.

Lemma StronglySorted_map_iff {A B : Type} (R : B -> B -> Prop) (f : A -> B)
  (l : list A) :
  StronglySorted R (map f l) <-> StronglySorted (fun a b => R (f a) (f b)) l.
Proof.
  induction l as [|x l IH]; simpl.
  - split; constructor.
  - split; intros H; inversion H as [|? ? Hs Hall]; subst; constructor;
      try (now apply IH).
    + rewrite Forall_forall in *. intros y Hy. apply Hall. now apply in_map.
    + rewrite Forall_forall in *. intros y Hy.
      apply in_map_iff in Hy as (a & <- & Ha). now apply Hall.
Qed.

Lemma game_date_leb_total (a b : RawRow) :
  game_date_leb a b = false -> game_date_leb b a = true.
Proof.
  unfold game_date_leb. intros H.
  destruct (Z.ltb_spec (raw_game_id a) (raw_game_id b)); [discriminate|].
  destruct (Z.ltb_spec (raw_game_id b) (raw_game_id a)); [reflexivity|].
  simpl in *.
  replace (raw_game_id a =? raw_game_id b) with true in H
    by (symmetry; apply Z.eqb_eq; lia).
  replace (raw_game_id b =? raw_game_id a) with true
    by (symmetry; apply Z.eqb_eq; lia).
  simpl in *. apply Z.leb_gt in H. apply Z.leb_le. lia.
Qed.

Lemma game_date_leb_spec (a b : RawRow) :
  game_date_leb a b = true <->
  raw_game_id a < raw_game_id b
  \/ (raw_game_id a = raw_game_id b /\ raw_date a <= raw_date b).
Proof.
  unfold game_date_leb.
  rewrite orb_true_iff, andb_true_iff, Z.ltb_lt, Z.eqb_eq, Z.leb_le.
  reflexivity.
Qed.

Lemma game_date_leb_trans (a b c : RawRow) :
  game_date_leb a b = true -> game_date_leb b c = true ->
  game_date_leb a c = true.
Proof.
  rewrite !game_date_leb_spec. lia.
Qed.

Lemma rank_leb_total (a b : Row) : rank_leb a b = false -> rank_leb b a = true.
Proof.
  unfold rank_leb. intros H. apply Z.leb_gt in H. apply Z.leb_le. lia.
Qed.

Lemma rank_leb_trans (a b c : Row) :
  rank_leb a b = true -> rank_leb b c = true -> rank_leb a c = true.
Proof.
  unfold rank_leb. rewrite !Z.leb_le. lia.
Qed.

(** ** Column minimum and maximum *)

Lemma fold_left_min_spec (l : list Z) (x : Z) :
  let m := fold_left Z.min l x in
  (m = x \/ In m l) /\ m <= x /\ (forall y, In y l -> m <= y).
Proof.
  revert x. induction l as [|a l IH]; simpl; intros x.
  - split; [now left | split; [lia | tauto]].
  - destruct (IH (Z.min x a)) as (Hin & Hle & Hall).
    split; [|split].
    + destruct Hin as [Hin|Hin]; [rewrite Hin | now right; right].
      destruct (Z.min_spec x a) as [[_ E]|[_ E]]; rewrite E;
        [now left | now right; left].
    + lia.
    + intros y [<-|Hy]; [lia | now apply Hall].
Qed.

Lemma fold_left_max_spec (l : list Z) (x : Z) :
  let m := fold_left Z.max l x in
  (m = x \/ In m l) /\ x <= m /\ (forall y, In y l -> y <= m).
Proof.
  revert x. induction l as [|a l IH]; simpl; intros x.
  - split; [now left | split; [lia | tauto]].
  - destruct (IH (Z.max x a)) as (Hin & Hle & Hall).
    split; [|split].
    + destruct Hin as [Hin|Hin]; [rewrite Hin | now right; right].
      destruct (Z.max_spec x a) as [[_ E]|[_ E]]; rewrite E;
        [now right; left | now left].
    + lia.
    + intros y [<-|Hy]; [lia | now apply Hall].
Qed.

Lemma series_min_spec (col : list Z) (m : Z) :
  series_min col = Some m <-> In m col /\ (forall y, In y col -> m <= y).
Proof.
  destruct col as [|x col]; simpl.
  - split; [discriminate | tauto].
  - pose proof (fold_left_min_spec col x) as (Hin & Hle & Hall). simpl in *.
    split.
    + intros [= <-]. split.
      * destruct Hin as [->|Hin]; [now left | now right].
      * intros y [<-|Hy]; [exact Hle | now apply Hall].
    + intros (Hm & Hmin). f_equal.
      assert (fold_left Z.min col x <= m)
        by (destruct Hm as [<-|Hm]; [exact Hle | now apply Hall]).
      assert (m <= fold_left Z.min col x)
        by (apply Hmin; destruct Hin as [->|Hin]; [now left | now right]).
      lia.
Qed.

Lemma series_max_spec (col : list Z) (m : Z) :
  series_max col = Some m <-> In m col /\ (forall y, In y col -> y <= m).
Proof.
  destruct col as [|x col]; simpl.
  - split; [discriminate | tauto].
  - pose proof (fold_left_max_spec col x) as (Hin & Hle & Hall). simpl in *.
    split.
    + intros [= <-]. split.
      * destruct Hin as [->|Hin]; [now left | now right].
      * intros y [<-|Hy]; [exact Hle | now apply Hall].
    + intros (Hm & Hmax). f_equal.
      assert (m <= fold_left Z.max col x)
        by (destruct Hm as [<-|Hm]; [exact Hle | now apply Hall]).
      assert (fold_left Z.max col x <= m)
        by (apply Hmax; destruct Hin as [->|Hin]; [now left | now right]).
      lia.
Qed.

Lemma series_min_nonempty (col : list Z) :
  col <> [] -> exists m, series_min col = Some m.
Proof. destruct col; [congruence | simpl; eauto]. Qed.

Lemma series_max_nonempty (col : list Z) :
  col <> [] -> exists m, series_max col = Some m.
Proof. destruct col; [congruence | simpl; eauto]. Qed.

(** ** The frame before the cutoff *)

Lemma groupby_diff_from_length (last : Z -> option Z) (df : list RawRow) :
  List.length (groupby_diff_from last df) = List.length df.
Proof.
  revert last. induction df as [|r df IH]; simpl; intros last;
    [reflexivity | now rewrite IH].
Qed.

Lemma raw_of_assign_views_diff (df : list RawRow) (col : list Z) :
  List.length col = List.length df -> map raw_of (assign_views_diff df col) = df.
Proof.
  unfold assign_views_diff. revert col.
  induction df as [|r df IH]; intros [|d col]; simpl; try discriminate;
    intros Hlen; [reflexivity|].
  injection Hlen as Hlen.
  rewrite IH by exact Hlen. now destruct r.
Qed.

Lemma raw_of_diffed_frame (csv : list RawRow) :
  map raw_of (diffed_frame csv) = sorted_frame csv.
Proof.
  unfold diffed_frame. apply raw_of_assign_views_diff.
  unfold fillna, groupby_diff.
  now rewrite length_map, groupby_diff_from_length.
Qed.

Lemma diffed_frame_perm (csv : list RawRow) :
  Permutation (map raw_of (diffed_frame csv)) (map sanitize_name csv).
Proof.
  rewrite raw_of_diffed_frame. apply sort_values_perm.
Qed.

Lemma diffed_frame_sorted (csv : list RawRow) :
  StronglySorted game_date_le (diffed_frame csv).
Proof.
  assert (H : StronglySorted (fun a b => game_date_leb a b = true)
                (map raw_of (diffed_frame csv))).
  { rewrite raw_of_diffed_frame.
    apply sort_values_strongly_sorted.
    - apply game_date_leb_total.
    - apply game_date_leb_trans. }
  apply StronglySorted_map_iff in H.
  eapply StronglySorted_ind with (P := StronglySorted game_date_le) in H;
    [exact H | constructor |].
  intros a l _ IH Hall. constructor; [exact IH|].
  rewrite Forall_forall in *. intros b Hb.
  apply Hall, game_date_leb_spec in Hb. exact Hb.
Qed.

Lemma diffed_frame_dates (csv : list RawRow) (d : Z) :
  In d (map date (diffed_frame csv)) <-> In d (map raw_date csv).
Proof.
  assert (E : forall l, map date l = map raw_date (map raw_of l))
    by (intros l; rewrite map_map; reflexivity).
  rewrite E.
  assert (P : Permutation (map raw_date (map raw_of (diffed_frame csv)))
                (map raw_date (map sanitize_name csv)))
    by apply Permutation_map, diffed_frame_perm.
  assert (E2 : map raw_date (map sanitize_name csv) = map raw_date csv)
    by (rewrite map_map; reflexivity).
  rewrite E2 in P.
  split; intros H.
  - eapply Permutation_in in H; [|exact P]. exact H.
  - eapply Permutation_in; [apply Permutation_sym, P|]. exact H.
Qed.

(** The cutoff is the day after the least date of the file. *)
Lemma cutoff_date_spec (csv : list RawRow) (m : Z) :
  In m (map raw_date csv) ->
  (forall r, In r csv -> m <= raw_date r) ->
  cutoff_date (diffed_frame csv) = Some (m + 1).
Proof.
  intros Hin Hmin. unfold cutoff_date.
  assert (E : series_min (map date (diffed_frame csv)) = Some m);
    [|now rewrite E].
  apply series_min_spec. split.
  - now apply diffed_frame_dates.
  - intros y Hy. apply diffed_frame_dates in Hy.
    apply in_map_iff in Hy as (r & <- & Hr). now apply Hmin.
Qed.

Lemma filter_map_comm {A B : Type} (f : A -> B) (p : B -> bool) (l : list A) :
  filter p (map f l) = map f (filter (fun x => p (f x)) l).
Proof.
  induction l as [|x l IH]; simpl; [reflexivity|].
  destruct (p (f x)); simpl; now rewrite IH.
Qed.

(** ** The cutoff *)

Lemma load_and_prepare_data_filter (csv : list RawRow) (m : Z) :
  In m (map raw_date csv) ->
  (forall r, In r csv -> m <= raw_date r) ->
  load_and_prepare_data csv
  = filter (fun r => m + 1 <=? date r) (diffed_frame csv).
Proof.
  intros Hin Hmin. unfold load_and_prepare_data.
  now rewrite (cutoff_date_spec csv m Hin Hmin).
Qed.

Lemma load_and_prepare_data_incl (csv : list RawRow) (r : Row) :
  In r (load_and_prepare_data csv) -> In r (diffed_frame csv).
Proof.
  unfold load_and_prepare_data, filter_cutoff.
  destruct (cutoff_date (diffed_frame csv)); [|intros []].
  intros H. now apply filter_In in H.
Qed.


(** C1.  Let [m] be the least date of the raw file.  The cutoff is the one
    date [m + 1], computed over the whole frame; the prepared table is the
    sorted frame restricted to the rows with [date >= m + 1], so it has no row
    dated [m], every row before the cutoff is dropped and every row from the
    cutoff on is kept: the kept rows are, up to their order, the raw rows
    (names sanitized) dated [m + 1] or later. *)
Theorem load_and_prepare_data_cutoff (csv : list RawRow) (m : Z) :
  In m (map raw_date csv) ->
  (forall r, In r csv -> m <= raw_date r) ->
  cutoff_date (diffed_frame csv) = Some (m + 1)
  /\ load_and_prepare_data csv
     = filter (fun r => m + 1 <=? date r) (diffed_frame csv)
  /\ (forall r, In r (load_and_prepare_data csv) -> date r <> m)
  /\ (forall r, In r (diffed_frame csv) -> date r < m + 1 ->
                ~ In r (load_and_prepare_data csv))
  /\ (forall r, In r (diffed_frame csv) -> m + 1 <= date r ->
                In r (load_and_prepare_data csv))
  /\ Permutation (map raw_of (load_and_prepare_data csv))
       (filter (fun r => m + 1 <=? raw_date r) (map sanitize_name csv)).
Proof.
  intros Hin Hmin.
  pose proof (load_and_prepare_data_filter csv m Hin Hmin) as E.
  split; [now apply cutoff_date_spec|].
  split; [exact E|].
  rewrite E. repeat split.
  - intros r Hr. apply filter_In in Hr as [_ Hr].
    apply Z.leb_le in Hr. lia.
  - intros r _ Hlt Hr. apply filter_In in Hr as [_ Hr].
    apply Z.leb_le in Hr. lia.
  - intros r Hr Hge. apply filter_In. split; [exact Hr|].
    now apply Z.leb_le.
  - rewrite <- (filter_map_comm raw_of (fun r => m + 1 <=? raw_date r)).
    apply Permutation_filter, diffed_frame_perm.
Qed.

(** ** Names *)

Lemma str_replace_apostrophe_filter (s : string) :
  list_ascii_of_string (str_replace_apostrophe s)
  = filter (fun c => negb (Ascii.eqb c "'"%char)) (list_ascii_of_string s).
Proof.
  induction s as [|c s IH]; simpl; [reflexivity|].
  destruct (Ascii.eqb c "'"%char); simpl; now rewrite IH.
Qed.

Lemma str_replace_apostrophe_clean (s : string) :
  ~ has_apostrophe (str_replace_apostrophe s).
Proof.
  unfold has_apostrophe. rewrite str_replace_apostrophe_filter.
  intros H. apply filter_In in H as [_ H].
  now rewrite Ascii.eqb_refl in H.
Qed.

Lemma diffed_frame_raw (csv : list RawRow) (r : Row) :
  In r (diffed_frame csv) -> exists raw, In raw csv /\ raw_of r = sanitize_name raw.
Proof.
  intros Hr.
  assert (H : In (raw_of r) (map raw_of (diffed_frame csv))) by now apply in_map.
  eapply Permutation_in in H; [|apply diffed_frame_perm].
  apply in_map_iff in H as (raw & E & Hraw). eauto.
Qed.

(** C8.  Every row of the prepared table comes from a line of the file whose
    name it bears with the apostrophes taken out and the other characters
    left in place; so no name of the prepared table has an apostrophe.  (The
    instance below is the name "King's Hall" of the scenario.) *)
Theorem load_and_prepare_data_names (csv : list RawRow) (r : Row) :
  In r (load_and_prepare_data csv) ->
  ~ has_apostrophe (name r)
  /\ exists raw,
       In raw csv
       /\ name r = str_replace_apostrophe (raw_name raw)
       /\ list_ascii_of_string (name r)
          = filter (fun c => negb (Ascii.eqb c "'"%char))
                   (list_ascii_of_string (raw_name raw))
       /\ raw_of r = sanitize_name raw.
Proof.
  intros Hr. apply load_and_prepare_data_incl, diffed_frame_raw in Hr.
  destruct Hr as (raw & Hraw & E).
  assert (En : name r = str_replace_apostrophe (raw_name raw))
    by (change (name r) with (raw_name (raw_of r)); now rewrite E).
  split.
  - rewrite En. apply str_replace_apostrophe_clean.
  - exists raw. repeat split; try assumption.
    rewrite En. apply str_replace_apostrophe_filter.
Qed.

Lemma load_and_prepare_data_names_witness :
  In (mkRow 2 2 "Kings Hall" 2021 1 80 30)
     (load_and_prepare_data two_games_three_days)
  /\ ~ has_apostrophe "Kings Hall"
  /\ str_replace_apostrophe "King's Hall" = "Kings Hall".
Proof.
  assert (Hin : In (mkRow 2 2 "Kings Hall" 2021 1 80 30)
                   (load_and_prepare_data two_games_three_days))
    by (vm_compute; tauto).
  split; [exact Hin|].
  split; [|reflexivity].
  exact (proj1 (load_and_prepare_data_names two_games_three_days _ Hin)).
Defined.

Lemma load_and_prepare_data_cutoff_witness :
  In 1 (map raw_date two_games_three_days)
  /\ (forall r, In r (load_and_prepare_data two_games_three_days) -> date r <> 1).
Proof.
  assert (Hin : In 1 (map raw_date two_games_three_days)) by (simpl; tauto).
  assert (Hmin : forall r, In r two_games_three_days -> 1 <= raw_date r).
  { intros r Hr. simpl in Hr.
    repeat (destruct Hr as [<-|Hr]; [simpl; lia|]). destruct Hr. }
  split; [exact Hin|].
  exact (proj1 (proj2 (proj2
           (load_and_prepare_data_cutoff two_games_three_days 1 Hin Hmin)))).
Defined.

(** ** Determinism and the memo table *)







(** ** The first difference per game *)

Lemma views_rows_of_game (g : Z) (df : DataFrame) :
  map views (rows_of_game g df)
  = map raw_views (filter (fun r => raw_game_id r =? g) (map raw_of df)).
Proof.
  rewrite filter_map_comm, map_map. reflexivity.
Qed.

Lemma groupby_diff_from_game (g : Z) (df : list RawRow) :
  forall last,
  map views_diff
      (rows_of_game g (assign_views_diff df (fillna 0 (groupby_diff_from last df))))
  = match last g with
    | Some v =>
        diffs_from v (map raw_views (filter (fun r => raw_game_id r =? g) df))
    | None =>
        first_difference
          (map raw_views (filter (fun r => raw_game_id r =? g) df))
    end.
Proof.
  unfold rows_of_game, assign_views_diff, fillna.
  induction df as [|r df IH]; intros last; simpl.
  - now destruct (last g).
  - destruct (Z.eqb_spec (raw_game_id r) g) as [E|NE]; simpl;
      rewrite IH; unfold set_last.
    + rewrite E, Z.eqb_refl.
      now destruct (last g).
    + destruct (Z.eqb_spec g (raw_game_id r)) as [E'|_]; [congruence|].
      reflexivity.
Qed.

Lemma diffed_frame_first_difference (csv : list RawRow) (g : Z) :
  map views_diff (rows_of_game g (diffed_frame csv))
  = first_difference (map views (rows_of_game g (diffed_frame csv))).
Proof.
  rewrite views_rows_of_game, raw_of_diffed_frame.
  unfold diffed_frame, groupby_diff.
  now rewrite groupby_diff_from_game.
Qed.

Lemma game_date_le_same_game (a b : Row) :
  game_date_le a b -> game_id a = game_id b -> date a <= date b.
Proof. unfold game_date_le. lia. Qed.



(** ** Dropping duplicates *)

Section DropDuplicates.
Context {A K : Type} (key : A -> K) (eqb : K -> K -> bool).
Hypothesis eqb_eq : forall a b, eqb a b = true <-> a = b.

Lemma drop_duplicates_incl (x : A) (l : list A) :
  In x (drop_duplicates key eqb l) -> In x l.
Proof.
  induction l as [|a l IH]; simpl; [tauto|].
  intros [->|H]; [now left|].
  apply filter_In in H as [H _]. right. now apply IH.
Qed.

Lemma drop_duplicates_first (x : A) (l : list A) :
  In x (drop_duplicates key eqb l)
  <-> find (fun y => eqb (key y) (key x)) l = Some x.
Proof.
  induction l as [|a l IH]; simpl; [split; [tauto | discriminate]|].
  destruct (eqb (key a) (key x)) eqn:E.
  - split.
    + intros [->|H]; [reflexivity|].
      apply filter_In in H as [_ H]. rewrite E in H. discriminate.
    + intros [= ->]. now left.
  - split.
    + intros [->|H].
      * assert (eqb (key x) (key x) = true) by now apply eqb_eq.
        congruence.
      * apply filter_In in H as [H _]. now apply IH.
    + intros H. right. apply filter_In. split; [now apply IH|].
      now rewrite E.
Qed.

Lemma drop_duplicates_keys (x : A) (l : list A) :
  In x l -> exists y, In y (drop_duplicates key eqb l) /\ key y = key x.
Proof.
  induction l as [|a l IH]; simpl; [tauto|].
  intros [->|H]; [exists x; auto|].
  destruct (IH H) as (y & Hy & Ey).
  destruct (eqb (key a) (key y)) eqn:E.
  - exists a. split; [now left|].
    apply eqb_eq in E. congruence.
  - exists y. split; [|exact Ey].
    right. apply filter_In. split; [exact Hy | now rewrite E].
Qed.

Lemma drop_duplicates_NoDup (l : list A) :
  NoDup (map key (drop_duplicates key eqb l)).
Proof.
  induction l as [|a l IH]; simpl; [constructor|].
  constructor.
  - intros H. apply in_map_iff in H as (y & Ey & Hy).
    apply filter_In in Hy as [_ Hy].
    assert (eqb (key a) (key y) = true) by (apply eqb_eq; congruence).
    rewrite H in Hy. discriminate.
  - rewrite <- filter_map_comm with (p := fun k => negb (eqb (key a) k)).
    now apply NoDup_filter.
Qed.
End DropDuplicates.

Lemma drop_duplicates_id_In {A : Type} (eqb : A -> A -> bool)
  (eqb_eq : forall a b, eqb a b = true <-> a = b) (x : A) (l : list A) :
  In x (drop_duplicates (fun a => a) eqb l) <-> In x l.
Proof.
  split; [apply drop_duplicates_incl|].
  intros H. destruct (drop_duplicates_keys (fun a => a) eqb eqb_eq x l H)
    as (y & Hy & ->). exact Hy.
Qed.

Lemma drop_duplicates_id_NoDup {A : Type} (eqb : A -> A -> bool)
  (eqb_eq : forall a b, eqb a b = true <-> a = b) (l : list A) :
  NoDup (drop_duplicates (fun a => a) eqb l).
Proof.
  rewrite <- (map_id (drop_duplicates _ _ _)).
  now apply drop_duplicates_NoDup.
Qed.

Lemma row_eqb_eq (a b : Row) : row_eqb a b = true <-> a = b.
Proof.
  unfold row_eqb. rewrite !andb_true_iff, !Z.eqb_eq, String.eqb_eq.
  split.
  - destruct a, b; simpl. intros ((((((-> & ->) & ->) & ->) & ->) & ->) & ->).
    reflexivity.
  - intros ->. tauto.
Qed.

Lemma isin_rank_In (values : list Z) (k : Z) :
  isin_rank values k = true <-> In k values.
Proof.
  unfold isin_rank. rewrite existsb_exists. split.
  - intros (x & Hx & E). apply Z.eqb_eq in E. now subst.
  - intros H. exists k. split; [exact H | apply Z.eqb_refl].
Qed.

Lemma isin_name_In (values : list string) (s : string) :
  isin_name values s = true <-> In s values.
Proof.
  unfold isin_name. rewrite existsb_exists. split.
  - intros (x & Hx & E). apply String.eqb_eq in E. now subst.
  - intros H. exists s. split; [exact H | apply String.eqb_refl].
Qed.

(** ** The candidate list of By Game mode *)


Lemma names_by_rank_kept (df : DataFrame) :
  let kept := sort_values rank_leb (drop_duplicates name String.eqb df) in
  names_by_rank df = map name kept
  /\ (forall r, In r kept <-> first_row df (name r) = Some r)
  /\ NoDup (names_by_rank df)
  /\ (forall n, In n (names_by_rank df) <-> In n (map name df))
  /\ StronglySorted rank_le kept.
Proof.
  intros kept. unfold names_by_rank. fold kept.
  assert (P : Permutation kept (drop_duplicates name String.eqb df))
    by apply sort_values_perm.
  split; [reflexivity|].
  split; [|split; [|split]].
  - intros r. unfold kept. rewrite sort_values_In.
    apply (drop_duplicates_first name String.eqb String.eqb_eq).
  - eapply Permutation_NoDup.
    + apply Permutation_map, Permutation_sym, P.
    + apply (drop_duplicates_NoDup name String.eqb String.eqb_eq).
  - intros n. rewrite !in_map_iff. split; intros (r & E & Hr).
    + exists r. split; [exact E|].
      apply (drop_duplicates_incl name String.eqb).
      unfold kept in Hr. now apply sort_values_In in Hr.
    + destruct (drop_duplicates_keys name String.eqb String.eqb_eq r df Hr)
        as (y & Hy & Ey).
      exists y. split; [congruence|].
      unfold kept. now apply sort_values_In.
  - assert (H : StronglySorted (fun a b => rank_leb a b = true) kept).
    { apply sort_values_strongly_sorted.
      - apply rank_leb_total.
      - apply rank_leb_trans. }
    eapply StronglySorted_ind with (P := StronglySorted rank_le) in H;
      [exact H | constructor |].
    intros a l _ IH Hall. constructor; [exact IH|].
    rewrite Forall_forall in *. intros b Hb.
    apply Hall in Hb. now apply Z.leb_le in Hb.
Qed.




(** ** The base set of By Rank mode *)

Lemma ranks_selected_In (df_filtered : DataFrame) (sel : list Z)
  (hl : list string) (r : Row) :
  In r (ranks_selected df_filtered sel hl)
  <-> In r df_filtered /\ (In (rank r) sel \/ In (name r) hl).
Proof.
  unfold ranks_selected.
  rewrite (drop_duplicates_id_In row_eqb row_eqb_eq), in_app_iff, !filter_In.
  rewrite isin_rank_In, isin_name_In. tauto.
Qed.

Lemma rank_chart_layers (df_filtered : DataFrame) (sel : list Z)
  (hl : list string) (t : TaggedRow) :
  (In t (rank_layer (rank_chart df_filtered sel hl))
   <-> exists r, t = tag_highlight hl r
                 /\ In r (ranks_selected df_filtered sel hl)
                 /\ In (rank r) sel)
  /\ (In t (highlight_layer (rank_chart df_filtered sel hl))
      <-> exists r, t = tag_highlight hl r
                    /\ In r (ranks_selected df_filtered sel hl)
                    /\ In (name r) hl).
Proof.
  unfold rank_chart; simpl. rewrite !filter_In, !in_map_iff.
  split; split.
  - intros ((r & <- & Hr) & H). apply isin_rank_In in H. eauto.
  - intros (r & -> & Hr & H). split; [eauto|]. now apply isin_rank_In.
  - intros ((r & <- & Hr) & H). apply isin_name_In in H. eauto.
  - intros (r & -> & Hr & H). split; [eauto|]. now apply isin_name_In.
Qed.

Lemma graph_section_by_rank (df : DataFrame) (w : Widgets) (st : SessionState)
  (start_date end_date : Z) (errors : list UICmd) :
  safe_get_user_data df w = Some (start_date, end_date, errors) ->
  widget ByGame (w_mode w) = ByRank ->
  graph_section df w st
  = Some
      (([Title "BGG Hotness Daily Views – By Game or By Rank";
         SidebarSubheader "Highlight Your Games"]
        ++ errors
        ++ fst (by_rank df (filter_dates start_date end_date df) w st))%list,
       snd (by_rank df (filter_dates start_date end_date df) w st)).
Proof.
  intros Hd Hm. unfold graph_section. rewrite Hd, Hm.
  now destruct (by_rank df (filter_dates start_date end_date df) w st).
Qed.

Lemma graph_section_by_game (df : DataFrame) (w : Widgets) (st : SessionState)
  (start_date end_date : Z) (errors : list UICmd) :
  safe_get_user_data df w = Some (start_date, end_date, errors) ->
  widget ByGame (w_mode w) = ByGame ->
  graph_section df w st
  = Some
      (([Title "BGG Hotness Daily Views – By Game or By Rank";
         SidebarSubheader "Highlight Your Games"]
        ++ errors
        ++ fst (by_game df (filter_dates start_date end_date df) end_date w st))%list,
       snd (by_game df (filter_dates start_date end_date df) end_date w st)).
Proof.
  intros Hd Hm. unfold graph_section. rewrite Hd, Hm.
  now destruct (by_game df (filter_dates start_date end_date df) end_date w st).
Qed.



(** ** The pivot of By Game mode *)









Lemma pivot_table_columns (df : DataFrame) :
  NoDup (pv_columns (pivot_table df))
  /\ forall n, In n (pv_columns (pivot_table df)) <-> In n (map name df).
Proof.
  simpl. split.
  - eapply Permutation_NoDup; [apply Permutation_sym, sort_values_perm|].
    apply (drop_duplicates_id_NoDup String.eqb String.eqb_eq).
  - intros n. rewrite sort_values_In.
    apply (drop_duplicates_id_In String.eqb String.eqb_eq).
Qed.







(** ** Runs of the time-series section *)

Lemma safe_get_user_data_spec (df : DataFrame) (w : Widgets)
  (start_date end_date : Z) (errors : list UICmd) :
  safe_get_user_data df w = Some (start_date, end_date, errors) ->
  exists min_date max_date,
    series_min (map date df) = Some min_date
    /\ series_max (map date df) = Some max_date
    /\ start_date = widget min_date (w_start_date w)
    /\ end_date = widget max_date (w_end_date w)
    /\ errors = if end_date <? start_date
                then [SidebarError msg_start_after_end] else [].
Proof.
  unfold safe_get_user_data.
  destruct (series_min (map date df)) as [mn|]; [|discriminate].
  destruct (series_max (map date df)) as [mx|]; [|discriminate].
  intros [= <- <- <-]. exists mn, mx. auto.
Qed.

Lemma safe_get_user_data_total (df : DataFrame) (w : Widgets) :
  df <> [] ->
  exists start_date end_date errors,
    safe_get_user_data df w = Some (start_date, end_date, errors).
Proof.
  intros Hne. unfold safe_get_user_data.
  destruct df as [|r df]; [congruence|]. simpl. eauto.
Qed.

Lemma filter_nil {A : Type} (f : A -> bool) (l : list A) :
  (forall x, In x l -> f x = false) -> filter f l = [].
Proof.
  induction l as [|x l IH]; simpl; intros H; [reflexivity|].
  rewrite (H x) by now left. apply IH. intros y Hy. apply H. now right.
Qed.


Lemma pivoted_no_rows (df_filtered : DataFrame) (selected : list string) :
  (forall r, In r df_filtered -> ~ In (name r) selected) ->
  pivoted df_filtered selected = empty_pivot.
Proof.
  intros H. unfold pivoted, games_selected.
  rewrite filter_nil; [reflexivity|].
  intros r Hr. destruct (isin_name selected (name r)) eqn:E; [|reflexivity].
  apply isin_name_In in E. now apply H in E.
Qed.

Lemma errors_no_warning (start_date end_date : Z) (c : UICmd) :
  In c (if end_date <? start_date
        then [SidebarError msg_start_after_end] else []) ->
  c = SidebarError msg_start_after_end.
Proof.
  destruct (end_date <? start_date); simpl; [|tauto].
  intros [<-|[]]. reflexivity.
Qed.

(** C10.  In By Game mode with an empty multiselect and some highlight
    enabled, the effective selection is the list of enabled highlighted games:
    it is not empty, the line chart is issued over the pivot of their rows and
    no warning is shown.  When they have no row in the date-filtered table the
    chart is still issued, over the empty pivot. *)
Theorem by_game_highlight_only (df : DataFrame) (w : Widgets) (st : SessionState)
  (start_date end_date : Z) (errors : list UICmd) :
  safe_get_user_data df w = Some (start_date, end_date, errors) ->
  widget ByGame (w_mode w) = ByGame ->
  widget (games_session df end_date w st) (w_games w) = [] ->
  highlighted_games w <> [] ->
  let df_filtered := filter_dates start_date end_date df in
  let p := pivoted df_filtered (highlighted_games w) in
  exists out st',
    graph_section df w st = Some (out, st')
    /\ effective_games df end_date w st = highlighted_games w
    /\ In (LineChart p (line_colors (highlighted_games w) p)) out
    /\ (forall m, ~ In (Warning m) out)
    /\ ((forall r, In r df_filtered -> ~ In (name r) (highlighted_games w)) ->
        In (LineChart empty_pivot (Some [])) out).
Proof.
  intros Hd Hm Hsel Hhl df_filtered p.
  rewrite (graph_section_by_game df w st start_date end_date errors Hd Hm).
  assert (Heff : effective_games df end_date w st = highlighted_games w)
    by (unfold effective_games; now rewrite Hsel).
  unfold by_game. rewrite Heff.
  destruct (highlighted_games w) as [|h hl] eqn:Ehl; [congruence|].
  cbn [is_nonempty fst snd]. fold df_filtered. fold p.
  do 2 eexists. split; [reflexivity|]. split; [reflexivity|].
  apply safe_get_user_data_spec in Hd as (mn & mx & _ & _ & _ & _ & Herr).
  split; [|split].
  - simpl. right. right. apply in_or_app. right. simpl. tauto.
  - intros m [H|[H|H]]; try discriminate.
    simpl in H. apply in_app_or in H as [H|H].
    + rewrite Herr in H. apply errors_no_warning in H. discriminate.
    + destruct H as [H|[H|[]]]; discriminate.
  - intros Hnone.
    assert (Ep : p = empty_pivot) by now apply pivoted_no_rows.
    simpl. right. right. apply in_or_app. right. simpl. right. left.
    now rewrite Ep.
Qed.

Lemma by_game_highlight_only_witness :
  exists out st',
    graph_section (load_and_prepare_data two_games_three_days) no_game_picked
                  fresh_session
    = Some (out, st')
    /\ highlighted_games no_game_picked = ["Final Titan"]
    /\ (forall m, ~ In (Warning m) out)
    /\ In (LineChart empty_pivot (Some [])) out.
Proof.
  assert (Hd : safe_get_user_data (load_and_prepare_data two_games_three_days)
                 no_game_picked = Some (2, 3, [])) by reflexivity.
  destruct (by_game_highlight_only
              (load_and_prepare_data two_games_three_days) no_game_picked
              fresh_session 2 3 [] Hd eq_refl eq_refl)
    as (out & st' & E & _ & _ & Hw & Hempty); [discriminate|].
  exists out, st'. split; [exact E|]. split; [reflexivity|].
  split; [exact Hw|].
  apply Hempty. intros r Hr. vm_compute in Hr.
  repeat (destruct Hr as [<-|Hr]; [vm_compute; intuition discriminate|]).
  destruct Hr.
Defined.

Lemma rank_chart_no_rows (sel : list Z) (hl : list string) :
  rank_chart [] sel hl
  = mkLayered [] (if is_nonempty hl then ColorByHighlight else ColorByRank) [].
Proof. reflexivity. Qed.

Lemma existsb_false {A : Type} (f : A -> bool) (l : list A) :
  (forall x, In x l -> f x = false) -> existsb f l = false.
Proof.
  induction l as [|x l IH]; simpl; intros H; [reflexivity|].
  rewrite (H x) by now left. apply IH. intros y Hy. apply H. now right.
Qed.




(** ** The single-day table *)

Lemma df_single_day_spec (df : DataFrame) (day : Z) :
  Permutation (df_single_day df day) (filter (fun r => date r =? day) df)
  /\ (forall r, In r (df_single_day df day) <-> In r df /\ date r = day)
  /\ StronglySorted rank_le (df_single_day df day).
Proof.
  unfold df_single_day. split; [apply sort_values_perm|]. split.
  - intros r. rewrite sort_values_In, filter_In, Z.eqb_eq. reflexivity.
  - assert (H : StronglySorted (fun a b => rank_leb a b = true)
                  (sort_values rank_leb (filter (fun r => date r =? day) df))).
    { apply sort_values_strongly_sorted.
      - apply rank_leb_total.
      - apply rank_leb_trans. }
    eapply StronglySorted_ind with (P := StronglySorted rank_le) in H;
      [exact H | constructor |].
    intros a l _ IH Hall. constructor; [exact IH|].
    rewrite Forall_forall in *. intros b Hb.
    apply Hall in Hb. now apply Z.leb_le in Hb.
Qed.

Lemma select_table_columns (rows : DataFrame) :
  select_columns table_columns rows
  = map (fun r => [NumCell (rank r); NumCell (game_id r); StrCell (name r);
                   NumCell (year r); NumCell (views r); NumCell (views_diff r)])
        rows.
Proof. reflexivity. Qed.

(** C9.  On a non-empty prepared table the picker has a value [day]: the
    greatest date of the table while the user has not picked one, the user's
    pick otherwise.  The rows shown are exactly the rows of that date, in
    ascending order of rank.  If there are some, the section writes its
    caption and renders them with the columns rank, game_id, name, year,
    views, views_diff in this order; if there are none, it shows the warning
    and renders no table. *)
Theorem hotness_table_section_spec (df : DataFrame) (w : Widgets) :
  df <> [] ->
  exists day,
    single_day df w = Some day
    /\ (w_single_day w = None ->
        In day (map date df) /\ forall r, In r df -> date r <= day)
    /\ (forall d, w_single_day w = Some d -> day = d)
    /\ Permutation (df_single_day df day) (filter (fun r => date r =? day) df)
    /\ (forall r, In r (df_single_day df day) <-> In r df /\ date r = day)
    /\ StronglySorted rank_le (df_single_day df day)
    /\ (df_single_day df day <> [] ->
        hotness_table_section df w
        = Some [Header "View of old Hotness List";
                Write (HotnessFor day);
                Dataframe
                  [ColRank; ColGameId; ColName; ColYear; ColViews; ColViewsDiff]
                  (map (fun r =>
                          [NumCell (rank r); NumCell (game_id r);
                           StrCell (name r); NumCell (year r);
                           NumCell (views r); NumCell (views_diff r)])
                       (df_single_day df day))])
    /\ (df_single_day df day = [] ->
        hotness_table_section df w
        = Some [Header "View of old Hotness List";
                Warning (NoDataFoundFor day)]).
Proof.
  intros Hne.
  assert (Hdates : map date df <> [])
    by (destruct df; [congruence | discriminate]).
  destruct (series_max_nonempty _ Hdates) as (mx & Emax).
  destruct (series_min_nonempty _ Hdates) as (mn & Emin).
  exists (widget mx (w_single_day w)).
  assert (Eday : single_day df w = Some (widget mx (w_single_day w)))
    by (unfold single_day; now rewrite Emax, Emin).
  split; [exact Eday|].
  split; [|split].
  - intros ->. simpl. apply series_max_spec in Emax as [Hin Hmax].
    split; [exact Hin|]. intros r Hr. apply Hmax. now apply in_map.
  - now intros d ->.
  - destruct (df_single_day_spec df (widget mx (w_single_day w)))
      as (HP & HIn & HS).
    split; [exact HP|]. split; [exact HIn|]. split; [exact HS|].
    unfold hotness_table_section. rewrite Eday.
    destruct (df_single_day df (widget mx (w_single_day w))) as [|r rows];
      split; intros H; try congruence; reflexivity.
Qed.

Lemma hotness_table_section_spec_witness :
  load_and_prepare_data two_games_three_days <> []
  /\ exists day,
       single_day (load_and_prepare_data two_games_three_days) untouched
       = Some day
       /\ day = 3
       /\ hotness_table_section (load_and_prepare_data two_games_three_days)
            untouched
          = Some [Header "View of old Hotness List";
                  Write (HotnessFor 3);
                  Dataframe
                    [ColRank; ColGameId; ColName; ColYear; ColViews; ColViewsDiff]
                    [[NumCell 1; NumCell 1; StrCell "Azul"; NumCell 2017;
                      NumCell 135; NumCell 15];
                     [NumCell 2; NumCell 2; StrCell "Kings Hall"; NumCell 2021;
                      NumCell 95; NumCell 15]]].
Proof.
  assert (Hne : load_and_prepare_data two_games_three_days <> [])
    by (vm_compute; discriminate).
  split; [exact Hne|].
  destruct (hotness_table_section_spec
              (load_and_prepare_data two_games_three_days) untouched Hne)
    as (day & Eday & _).
  exists day. split; [exact Eday|].
  assert (E3 : day = 3) by (vm_compute in Eday; congruence).
  split; [exact E3 | reflexivity].
Defined.

(** The cutoff is one date for the whole table: a game whose first record is
    on a later day keeps that record, with [views_diff = 0]. *)
Example cutoff_is_global :
  load_and_prepare_data
    [ mkRawRow 1 1 "Azul" 2017 1 100; mkRawRow 1 2 "Azul" 2017 1 120;
      mkRawRow 2 2 "Brass" 2018 2 50; mkRawRow 2 3 "Brass" 2018 2 80 ]
  = [ mkRow 1 2 "Azul" 2017 1 120 20; mkRow 2 2 "Brass" 2018 2 50 0;
      mkRow 2 3 "Brass" 2018 2 80 30 ].
Proof. reflexivity. Qed.

Lemma single_day_total (df : DataFrame) (w : Widgets) :
  df <> [] -> exists day, single_day df w = Some day.
Proof.
  intros Hne. unfold single_day.
  destruct df as [|r df]; [congruence|]. simpl. eauto.
Qed.

(** A file whose rows all bear one date has nothing left after the cutoff. *)
Lemma load_and_prepare_data_single_date (csv : list RawRow) (m : Z) :
  (forall r, In r csv -> raw_date r = m) -> load_and_prepare_data csv = [].
Proof.
  intros Hall. unfold load_and_prepare_data, filter_cutoff.
  destruct (cutoff_date (diffed_frame csv)) as [c|] eqn:Ec; [|reflexivity].
  unfold cutoff_date in Ec.
  destruct (series_min (map date (diffed_frame csv))) as [m'|] eqn:Em;
    [|discriminate].
  injection Ec as <-. apply series_min_spec in Em as [Hin _].
  assert (Hdate : forall d, In d (map date (diffed_frame csv)) -> d = m).
  { intros d Hd. apply diffed_frame_dates, in_map_iff in Hd as (r & <- & Hr).
    now apply Hall. }
  apply filter_nil. intros r Hr. apply Z.leb_gt.
  rewrite (Hdate m' Hin), (Hdate (date r)) by now apply in_map.
  lia.
Qed.

(** A run of the whole script is defined on every file that has rows left
    after the cutoff. *)
Lemma run_total (csv : list RawRow) (w : Widgets) (st : SessionState) :
  load_and_prepare_data csv <> [] ->
  exists out st', run csv w st = Some (out, st').
Proof.
  intros Hne. unfold run.
  destruct (safe_get_user_data_total _ w Hne) as (s & e & errors & Hd).
  destruct (single_day_total _ w Hne) as (day & Eday).
  unfold graph_section, hotness_table_section. rewrite Hd, Eday.
  destruct (widget ByGame (w_mode w));
    [destruct (by_game _ _ _ _ _) | destruct (by_rank _ _ _ _)]; eauto.
Qed.

(** * Further properties of the view controller and of the preparation *)

(** ** Empty selections *)

Lemma errors_not_chart (start_date end_date : Z) :
  existsb is_chart
    (if end_date <? start_date then [SidebarError msg_start_after_end] else [])
  = false.
Proof. now destruct (end_date <? start_date). Qed.

(** By Game mode (lines 106-136): with an empty multiselect and every highlight
    off, the section puts its title, subheader and the date error, if any, on
    the page, then the "no games selected" warning, and issues no chart. *)
Theorem by_game_nothing_selected (df : DataFrame) (w : Widgets)
  (st : SessionState) (start_date end_date : Z) (errors : list UICmd) :
  safe_get_user_data df w = Some (start_date, end_date, errors) ->
  widget ByGame (w_mode w) = ByGame ->
  widget (games_session df end_date w st) (w_games w) = [] ->
  highlighted_games w = [] ->
  exists out st',
    graph_section df w st = Some (out, st')
    /\ out = ([Title "BGG Hotness Daily Views – By Game or By Rank";
              SidebarSubheader "Highlight Your Games"]
             ++ errors ++ [Warning msg_no_games])%list
    /\ existsb is_chart out = false.
Proof.
  intros Hd Hm Hsel Hhl.
  rewrite (graph_section_by_game df w st start_date end_date errors Hd Hm).
  unfold by_game, effective_games. rewrite Hsel, Hhl.
  cbn [app is_nonempty fst snd].
  do 2 eexists. split; [reflexivity|]. split; [reflexivity|].
  apply safe_get_user_data_spec in Hd as (mn & mx & _ & _ & _ & _ & ->).
  cbn [existsb is_chart orb]. rewrite existsb_app, errors_not_chart.
  reflexivity.
Qed.

Lemma by_game_nothing_selected_witness :
  exists out st',
    graph_section (load_and_prepare_data two_games_three_days) nothing_selected
                  fresh_session
    = Some (out, st')
    /\ In (Warning msg_no_games) out
    /\ existsb is_chart out = false.
Proof.
  destruct (by_game_nothing_selected
              (load_and_prepare_data two_games_three_days) nothing_selected
              fresh_session 2 3 [] eq_refl eq_refl eq_refl eq_refl)
    as (out & st' & E & Eout & Hc).
  exists out, st'. split; [exact E|]. split; [|exact Hc].
  rewrite Eout. simpl. tauto.
Defined.



(** ** The date range *)

Lemma filter_all {A : Type} (f : A -> bool) (l : list A) :
  (forall x, In x l -> f x = true) -> filter f l = l.
Proof.
  induction l as [|x l IH]; simpl; intros H; [reflexivity|].
  rewrite (H x) by now left. f_equal. apply IH. intros y Hy. apply H. now right.
Qed.

(** Lines 24-37 and 74-76: while the user has touched neither date picker,
    the range runs from the least to the greatest date of the prepared table,
    no error is raised and the date filter keeps the whole table. *)
Theorem default_date_range (df : DataFrame) (w : Widgets) :
  df <> [] ->
  w_start_date w = None ->
  w_end_date w = None ->
  exists start_date end_date,
    safe_get_user_data df w = Some (start_date, end_date, [])
    /\ (forall r, In r df -> start_date <= date r <= end_date)
    /\ In start_date (map date df) /\ In end_date (map date df)
    /\ filter_dates start_date end_date df = df.
Proof.
  intros Hne Hs He.
  assert (Hdates : map date df <> [])
    by (destruct df; [congruence | discriminate]).
  destruct (series_min_nonempty _ Hdates) as (mn & Emin).
  destruct (series_max_nonempty _ Hdates) as (mx & Emax).
  pose proof (proj1 (series_min_spec _ _) Emin) as [Hmin_in Hmin].
  pose proof (proj1 (series_max_spec _ _) Emax) as [Hmax_in Hmax].
  assert (Hbounds : forall r, In r df -> mn <= date r <= mx).
  { intros r Hr. split; [apply Hmin | apply Hmax]; now apply in_map. }
  exists mn, mx. split; [|split; [exact Hbounds|split; [exact Hmin_in|split]]].
  - unfold safe_get_user_data. rewrite Emin, Emax, Hs, He. simpl.
    assert (mn <= mx) by (apply Hmin; exact Hmax_in).
    destruct (Z.ltb_spec mx mn); [lia | reflexivity].
  - exact Hmax_in.
  - apply filter_all. intros r Hr. apply Hbounds in Hr.
    apply andb_true_iff. split; apply Z.leb_le; lia.
Qed.

Lemma default_date_range_witness :
  exists start_date end_date,
    safe_get_user_data (load_and_prepare_data two_games_three_days) untouched
    = Some (start_date, end_date, [])
    /\ filter_dates start_date end_date
         (load_and_prepare_data two_games_three_days)
       = load_and_prepare_data two_games_three_days.
Proof.
  destruct (default_date_range (load_and_prepare_data two_games_three_days)
              untouched)
    as (s & e & Hd & _ & _ & _ & Hf);
    [vm_compute; discriminate | reflexivity | reflexivity |].
  exists s, e. split; [exact Hd | exact Hf].
Defined.

Lemma by_game_no_sidebar_error (df df_filtered : DataFrame) (end_date : Z)
  (w : Widgets) (st : SessionState) (s : string) :
  ~ In (SidebarError s) (fst (by_game df df_filtered end_date w st)).
Proof.
  unfold by_game.
  destruct (is_nonempty (effective_games df end_date w st)); simpl;
    intuition discriminate.
Qed.

Lemma by_rank_no_sidebar_error (df df_filtered : DataFrame) (w : Widgets)
  (st : SessionState) (s : string) :
  ~ In (SidebarError s) (fst (by_rank df df_filtered w st)).
Proof.
  unfold by_rank.
  destruct (is_nonempty (widget (ranks_session df w st) (w_ranks w))); simpl;
    intuition discriminate.
Qed.

(** Lines 33-37 and 74-76: in either mode, the page carries the date error
    exactly when the end date is before the start date, and the rows passed on
    to the charts are exactly the rows of the prepared table dated within the
    range, bounds included. *)
Theorem sidebar_error_iff_inverted (df : DataFrame) (w : Widgets)
  (st : SessionState) (start_date end_date : Z) (errors out : list UICmd)
  (st' : SessionState) :
  safe_get_user_data df w = Some (start_date, end_date, errors) ->
  graph_section df w st = Some (out, st') ->
  (forall s, In (SidebarError s) out
             <-> s = msg_start_after_end /\ end_date < start_date)
  /\ (forall r, In r (filter_dates start_date end_date df)
                <-> In r df /\ start_date <= date r <= end_date).
Proof.
  intros Hd Hg. split.
  - pose proof (safe_get_user_data_spec _ _ _ _ _ Hd)
      as (mn & mx & _ & _ & _ & _ & Herr).
    assert (Herrs : forall s, In (SidebarError s) errors
                              <-> s = msg_start_after_end /\ end_date < start_date).
    { intros s. rewrite Herr. destruct (Z.ltb_spec end_date start_date); simpl.
      - split; [intros [[= <-]|[]]; auto | intros [-> _]; now left].
      - split; [tauto | lia]. }
    intros s. rewrite <- Herrs.
    destruct (widget ByGame (w_mode w)) eqn:Hm.
    + rewrite (graph_section_by_game df w st _ _ _ Hd Hm) in Hg.
      injection Hg as <- _. simpl. rewrite in_app_iff.
      pose proof (by_game_no_sidebar_error df
                    (filter_dates start_date end_date df) end_date w st s).
      intuition discriminate.
    + rewrite (graph_section_by_rank df w st _ _ _ Hd Hm) in Hg.
      injection Hg as <- _. simpl. rewrite in_app_iff.
      pose proof (by_rank_no_sidebar_error df
                    (filter_dates start_date end_date df) w st s).
      intuition discriminate.
  - intros r. unfold filter_dates.
    rewrite filter_In, andb_true_iff, !Z.leb_le. tauto.
Qed.

Lemma sidebar_error_iff_inverted_witness :
  exists out st',
    graph_section (load_and_prepare_data two_games_three_days) inverted_range
                  fresh_session
    = Some (out, st')
    /\ (In (SidebarError msg_start_after_end) out <-> 2 < 3).
Proof.
  eexists. eexists. split; [reflexivity|].
  pose proof (sidebar_error_iff_inverted
                (load_and_prepare_data two_games_three_days) inverted_range
                fresh_session 3 2 _ _ _ eq_refl eq_refl) as [H _].
  specialize (H msg_start_after_end). tauto.
Defined.

(** ** Candidate lists and the session's selection *)

Lemma firstn_In {A : Type} (n : nat) (l : list A) (x : A) :
  In x (firstn n l) -> In x l.
Proof.
  intros H. rewrite <- (firstn_skipn n l). apply in_or_app. now left.
Qed.

Lemma firstn_NoDup {A : Type} (n : nat) (l : list A) :
  NoDup l -> NoDup (firstn n l).
Proof.
  intros H. rewrite <- (firstn_skipn n l) in H.
  now apply NoDup_app_remove_r in H.
Qed.

Lemma StronglySorted_weaken {A : Type} (R R' : A -> A -> Prop) (l : list A) :
  StronglySorted R l ->
  (forall x y, In x l -> In y l -> R x y -> R' x y) ->
  StronglySorted R' l.
Proof.
  induction 1 as [|a l Hs IH Hall]; intros Himp; constructor.
  - apply IH. intros x y Hx Hy. apply Himp; now right.
  - rewrite Forall_forall in *. intros y Hy.
    apply Himp; [now left | now right | now apply Hall].
Qed.

Lemma most_recent_games_In (df : DataFrame) (end_date : Z) (n : string) :
  In n (most_recent_games df end_date)
  <-> exists r, In r df /\ date r = end_date /\ name r = n.
Proof.
  unfold most_recent_games.
  destruct (names_by_rank_kept (filter (fun r => date r =? end_date) df))
    as (_ & _ & _ & Hin & _).
  rewrite Hin, in_map_iff. split.
  - intros (r & E & Hr). apply filter_In in Hr as [Hr Hd].
    apply Z.eqb_eq in Hd. eauto.
  - intros (r & Hr & Hd & E). exists r. split; [exact E|].
    apply filter_In. split; [exact Hr | now apply Z.eqb_eq].
Qed.

Lemma most_recent_games_NoDup (df : DataFrame) (end_date : Z) :
  NoDup (most_recent_games df end_date).
Proof.
  unfold most_recent_games.
  now destruct (names_by_rank_kept (filter (fun r => date r =? end_date) df))
    as (_ & _ & H & _).
Qed.

Lemma most_recent_games_options (df : DataFrame) (end_date : Z) (k : nat)
  (n : string) :
  In n (firstn k (most_recent_games df end_date)) -> In n (all_games_list df).
Proof.
  intros Hn. apply firstn_In, most_recent_games_In in Hn.
  destruct Hn as (r & Hr & _ & <-).
  unfold all_games_list.
  destruct (names_by_rank_kept df) as (_ & _ & _ & Hin & _).
  apply Hin. now apply in_map.
Qed.

(** Line 82: the "most recent" list holds, each once, the names that have a
    row on the end date; it is ordered by the rank of the kept row of each
    name, all of them rows of the end date; and every entry is among the
    multiselect's options (line 81), so that any prefix of it is a valid
    default of the multiselect. *)
Theorem most_recent_games_spec (df : DataFrame) (end_date : Z) :
  NoDup (most_recent_games df end_date)
  /\ (forall n, In n (most_recent_games df end_date)
                <-> exists r, In r df /\ date r = end_date /\ name r = n)
  /\ (forall k n, In n (firstn k (most_recent_games df end_date)) ->
                  In n (all_games_list df))
  /\ exists kept,
       most_recent_games df end_date = map name kept
       /\ StronglySorted rank_le kept
       /\ forall r, In r kept -> In r df /\ date r = end_date.
Proof.
  pose proof (names_by_rank_kept (filter (fun r => date r =? end_date) df))
    as (E & Hfirst & Hnd & _ & Hs).
  split; [exact Hnd|]. split; [apply most_recent_games_In|]. split.
  - apply most_recent_games_options.
  - eexists. split; [exact E|]. split; [exact Hs|].
    intros r Hr. apply Hfirst in Hr. unfold first_row in Hr.
    apply find_some in Hr as [Hr _]. apply filter_In in Hr as [Hr Hd].
    apply Z.eqb_eq in Hd. auto.
Qed.

(** Lines 84-97: whatever buttons are clicked, the selection kept in the
    session stays a duplicate-free list of options of the multiselect, provided
    the selection found in the session, if any, was one. *)
Theorem games_session_within_options (df : DataFrame) (end_date : Z)
  (w : Widgets) (st : SessionState) :
  (forall l, selected_games st = Some l ->
             NoDup l /\ forall n, In n l -> In n (all_games_list df)) ->
  NoDup (games_session df end_date w st)
  /\ forall n, In n (games_session df end_date w st) -> In n (all_games_list df).
Proof.
  intros Hst.
  pose proof (most_recent_games_NoDup df end_date) as Hnd.
  pose proof (most_recent_games_options df end_date) as Hincl.
  assert (Hall : NoDup (all_games_list df))
    by (destruct (names_by_rank_kept df) as (_ & _ & H & _); exact H).
  unfold games_session.
  destruct (w_games_top15 w); [split; [now apply firstn_NoDup | apply Hincl]|].
  destruct (w_games_top7 w); [split; [now apply firstn_NoDup | apply Hincl]|].
  destruct (w_games_none w); [split; [constructor | intros n []]|].
  destruct (w_games_select_all w); [split; [exact Hall | auto]|].
  destruct (selected_games st) as [l|] eqn:El; cbn [widget].
  - now apply Hst.
  - split; [now apply firstn_NoDup | apply Hincl].
Qed.

Lemma games_session_within_options_witness :
  NoDup (games_session (load_and_prepare_data two_games_three_days) 3
                       untouched (mkSession (Some ["Azul"]) None))
  /\ forall n,
       In n (games_session (load_and_prepare_data two_games_three_days) 3
                           untouched (mkSession (Some ["Azul"]) None)) ->
       In n (all_games_list (load_and_prepare_data two_games_three_days)).
Proof.
  apply games_session_within_options.
  intros l [= <-]. split.
  - constructor; [simpl; tauto | constructor].
  - intros n [<-|[]]. vm_compute. tauto.
Defined.

Lemma StronglySorted_lt_of_le (l : list Z) :
  StronglySorted Z.le l -> NoDup l -> StronglySorted Z.lt l.
Proof.
  induction 1 as [|a l Hs IH Hall]; intros Hnd; constructor;
    inversion Hnd as [|? ? Hnotin Hnd']; subst.
  - now apply IH.
  - rewrite Forall_forall in *. intros y Hy.
    assert (a <> y) by (intros ->; contradiction).
    specialize (Hall y Hy). lia.
Qed.

Lemma Z_leb_total (a b : Z) : (a <=? b) = false -> (b <=? a) = true.
Proof. intros H. apply Z.leb_gt in H. apply Z.leb_le. lia. Qed.

Lemma Z_leb_trans (a b c : Z) :
  (a <=? b) = true -> (b <=? c) = true -> (a <=? c) = true.
Proof. rewrite !Z.leb_le. lia. Qed.

Lemma sorted_unique_Z (l : list Z) :
  StronglySorted Z.lt (sort_values Z.leb (drop_duplicates (fun k => k) Z.eqb l))
  /\ forall k, In k (sort_values Z.leb (drop_duplicates (fun k => k) Z.eqb l))
               <-> In k l.
Proof.
  split.
  - apply StronglySorted_lt_of_le.
    + eapply StronglySorted_weaken.
      * apply (sort_values_strongly_sorted Z.leb Z_leb_total Z_leb_trans).
      * intros x y _ _ H. now apply Z.leb_le.
    + eapply Permutation_NoDup; [apply Permutation_sym, sort_values_perm|].
      apply (drop_duplicates_id_NoDup Z.eqb Z.eqb_eq).
  - intros k. rewrite sort_values_In.
    apply (drop_duplicates_id_In Z.eqb Z.eqb_eq).
Qed.

(** Line 142: the rank options are the ranks that occur in the prepared
    table, in strictly ascending order, hence each once. *)
Theorem all_ranks_spec (df : DataFrame) :
  StronglySorted Z.lt (all_ranks df)
  /\ NoDup (all_ranks df)
  /\ forall k, In k (all_ranks df) <-> exists r, In r df /\ rank r = k.
Proof.
  destruct (sorted_unique_Z (map rank df)) as [Hs Hin].
  split; [exact Hs|]. split.
  - eapply Permutation_NoDup; [apply Permutation_sym, sort_values_perm|].
    apply (drop_duplicates_id_NoDup Z.eqb Z.eqb_eq).
  - intros k. unfold all_ranks. rewrite Hin, in_map_iff.
    split; intros (r & H1 & H2); eauto.
Qed.

(** Lines 143-153: when the ranks 1 to 10 all occur in the prepared table,
    the rank selection kept in the session stays within the options of the
    multiselect, provided the selection found in the session, if any, was
    within them. *)
Theorem ranks_session_within_options (df : DataFrame) (w : Widgets)
  (st : SessionState) :
  (forall k, In k default_ranks -> exists r, In r df /\ rank r = k) ->
  (forall l, selected_ranks st = Some l -> forall k, In k l -> In k (all_ranks df)) ->
  forall k, In k (ranks_session df w st) -> In k (all_ranks df).
Proof.
  intros Hdef Hst.
  assert (Hdef' : forall k, In k default_ranks -> In k (all_ranks df)).
  { intros k Hk. destruct (sorted_unique_Z (map rank df)) as [_ Hin].
    apply Hin, in_map_iff. destruct (Hdef k Hk) as (r & Hr & E). eauto. }
  unfold ranks_session.
  destruct (w_ranks_select_default w); [exact Hdef'|].
  destruct (w_ranks_select_none w); [intros k []|].
  destruct (w_ranks_select_all w); [auto|].
  destruct (selected_ranks st) as [l|] eqn:El; cbn [widget];
    [now apply Hst | exact Hdef'].
Qed.

Lemma in_map_rank (df : DataFrame) (k : Z) :
  In k (map rank df) -> exists r, In r df /\ rank r = k.
Proof.
  intros H. apply in_map_iff in H as (r & E & Hr). eauto.
Qed.

Lemma ranks_session_within_options_witness :
  In 10 (ranks_session (load_and_prepare_data ten_games) untouched fresh_session)
  /\ In 10 (all_ranks (load_and_prepare_data ten_games)).
Proof.
  assert (Hin : In 10 (ranks_session (load_and_prepare_data ten_games)
                                     untouched fresh_session))
    by (vm_compute; tauto).
  assert (Hdef : forall k, In k default_ranks ->
                   exists r, In r (load_and_prepare_data ten_games) /\ rank r = k).
  { intros k Hk. apply in_map_rank. vm_compute in Hk. vm_compute. tauto. }
  assert (Hst : forall l, selected_ranks fresh_session = Some l ->
                  forall k, In k l -> In k (all_ranks (load_and_prepare_data ten_games)))
    by (intros l [=]).
  split; [exact Hin|].
  exact (ranks_session_within_options _ _ _ Hdef Hst 10 Hin).
Defined.

(** ** The pivot as a table *)

Lemma string_leb_total (a b : string) :
  String.leb a b = false -> String.leb b a = true.
Proof.
  intros H. destruct (String.leb_total a b) as [H'|H']; congruence.
Qed.

Lemma games_selected_In (df_filtered : DataFrame) (selected : list string)
  (r : Row) :
  In r (games_selected df_filtered selected)
  <-> In r df_filtered /\ In (name r) selected.
Proof.
  unfold games_selected. now rewrite filter_In, isin_name_In.
Qed.

Lemma pivoted_cells (df_filtered : DataFrame) (selected : list string) :
  pv_cells (pivoted df_filtered selected)
  = map (fun d =>
           map (fun n =>
                  sum_views_diff
                    (cell_rows (games_selected df_filtered selected) d n))
               (pv_columns (pivoted df_filtered selected)))
        (pv_index (pivoted df_filtered selected)).
Proof.
  unfold pivoted, pivot_fillna. cbn [pv_cells pv_index pv_columns pivot_table].
  rewrite map_map. apply map_ext. intros d.
  unfold fillna. rewrite map_map. apply map_ext. intros n.
  now destruct (cell_rows (games_selected df_filtered selected) d n).
Qed.

(** Lines 111-116: the pivot is a full table.  Its row labels are the dates
    on which a selected game has a row in the range, in strictly ascending
    order; its column labels are the selected names that have a row in the
    range, each once and in ascending order; and it has one line of cells per
    row label with one cell per column label. *)
Theorem pivoted_shape (df_filtered : DataFrame) (selected : list string) :
  let p := pivoted df_filtered selected in
  List.length (pv_cells p) = List.length (pv_index p)
  /\ (forall line, In line (pv_cells p) ->
                   List.length line = List.length (pv_columns p))
  /\ StronglySorted Z.lt (pv_index p)
  /\ (forall d, In d (pv_index p)
                <-> exists r, In r df_filtered /\ In (name r) selected
                              /\ date r = d)
  /\ NoDup (pv_columns p)
  /\ Sorted (fun a b => String.leb a b = true) (pv_columns p)
  /\ (forall n, In n (pv_columns p)
                <-> In n selected /\ exists r, In r df_filtered /\ name r = n).
Proof.
  intros p. unfold p. rewrite pivoted_cells.
  set (df_selected := games_selected df_filtered selected).
  change (pv_index (pivoted df_filtered selected))
    with (pv_index (pivot_table df_selected)).
  change (pv_columns (pivoted df_filtered selected))
    with (pv_columns (pivot_table df_selected)).
  destruct (sorted_unique_Z (map date df_selected)) as [Hs Hin].
  destruct (pivot_table_columns df_selected) as [Hnd Hcols].
  split; [now rewrite length_map|].
  split; [intros line Hl; apply in_map_iff in Hl as (d & <- & _);
          now rewrite length_map|].
  split; [exact Hs|]. split; [|split; [exact Hnd|split]].
  - intros d. cbn [pv_index pivot_table]. rewrite Hin, in_map_iff. split.
    + intros (r & E & Hr). apply games_selected_In in Hr. exists r. tauto.
    + intros (r & Hr & Hsel & E). exists r. split; [exact E|].
      now apply games_selected_In.
  - cbn [pv_columns pivot_table].
    apply sort_values_sorted, string_leb_total.
  - intros n. rewrite Hcols, in_map_iff. split.
    + intros (r & E & Hr). apply games_selected_In in Hr as [Hr Hsel].
      subst n. eauto.
    + intros (Hsel & r & Hr & E). exists r. split; [exact E|].
      apply games_selected_In. subst n. auto.
Qed.

Lemma pivoted_shape_witness :
  In 3 (pv_index (pivoted (filter_dates 2 3
                             (load_and_prepare_data two_games_three_days))
                          ["Azul"; "Final Titan"]))
  /\ exists r,
       In r (filter_dates 2 3 (load_and_prepare_data two_games_three_days))
       /\ In (name r) ["Azul"; "Final Titan"] /\ date r = 3.
Proof.
  assert (Hin : In 3 (pv_index (pivoted (filter_dates 2 3
                                           (load_and_prepare_data
                                              two_games_three_days))
                                        ["Azul"; "Final Titan"])))
    by (vm_compute; tauto).
  split; [exact Hin|].
  pose proof (pivoted_shape
                (filter_dates 2 3 (load_and_prepare_data two_games_three_days))
                ["Azul"; "Final Titan"]) as H.
  cbv zeta in H. destruct H as (_ & _ & _ & H & _).
  exact (proj1 (H 3) Hin).
Defined.

(** Lines 111-116: the cell of the pivot in the line of the date [d] and the
    column of the name [n] is the sum of [views_diff] over the rows of the
    selected games in the range that bear this date and this name; it is 0
    when there is no such row. *)
Theorem pivoted_cell (df_filtered : DataFrame) (selected : list string)
  (i j : nat) (d : Z) (n : string) :
  nth_error (pv_index (pivoted df_filtered selected)) i = Some d ->
  nth_error (pv_columns (pivoted df_filtered selected)) j = Some n ->
  exists line,
    nth_error (pv_cells (pivoted df_filtered selected)) i = Some line
    /\ nth_error line j
       = Some (sum_views_diff
                 (filter (fun r => (date r =? d) && String.eqb (name r) n)
                         (games_selected df_filtered selected)))
    /\ ((forall r, In r df_filtered -> date r = d -> name r <> n) ->
        nth_error line j = Some 0).
Proof.
  intros Hi Hj. rewrite pivoted_cells.
  rewrite nth_error_map, Hi. cbn [option_map].
  eexists. split; [reflexivity|].
  rewrite nth_error_map, Hj. cbn [option_map]. split; [reflexivity|].
  intros Hnone. unfold cell_rows. rewrite filter_nil; [reflexivity|].
  intros r Hr. apply games_selected_In in Hr as [Hr _].
  destruct (Z.eqb_spec (date r) d) as [Ed|]; [|reflexivity].
  destruct (String.eqb_spec (name r) n) as [En|]; [|reflexivity].
  now destruct (Hnone r Hr Ed).
Qed.

Lemma pivoted_cell_witness :
  exists line,
    nth_error (pv_cells (pivoted (filter_dates 2 3
                                    (load_and_prepare_data two_games_three_days))
                                 ["Azul"; "Kings Hall"])) 0
    = Some line
    /\ nth_error line 1 = Some 30.
Proof.
  destruct (pivoted_cell
              (filter_dates 2 3 (load_and_prepare_data two_games_three_days))
              ["Azul"; "Kings Hall"] 0 1 2 "Kings Hall" eq_refl eq_refl)
    as (line & E & Hc & _).
  exists line. split; [exact E | exact Hc].
Defined.

(** Lines 120-129: with no highlight enabled the chart gets no colour list.
    Otherwise it gets one colour per column of the pivot, red for the columns
    of highlighted games and gray for the others; and every highlighted game
    that is selected and has a row in the range has its column, in red. *)
Theorem line_colors_by_column (df_filtered : DataFrame)
  (selected hl : list string) :
  let p := pivoted df_filtered selected in
  (hl = [] -> line_colors hl p = None)
  /\ (hl <> [] ->
      exists colors,
        line_colors hl p = Some colors
        /\ List.length colors = List.length (pv_columns p)
        /\ (forall j n, nth_error (pv_columns p) j = Some n ->
              (In n hl -> nth_error colors j = Some "#FF0000")
              /\ (~ In n hl -> nth_error colors j = Some "#AAAAAA"))
        /\ (forall n r, In n hl -> In n selected -> In r df_filtered ->
              name r = n ->
              exists j, nth_error (pv_columns p) j = Some n
                        /\ nth_error colors j = Some "#FF0000")).
Proof.
  intros p. split; [intros ->; reflexivity|].
  intros Hne. unfold line_colors.
  destruct hl as [|h hl]; [congruence|]. cbn [is_nonempty].
  eexists. split; [reflexivity|].
  assert (Hcol : forall j n, nth_error (pv_columns p) j = Some n ->
            (In n (h :: hl) ->
             nth_error (map (fun col => if isin_name (h :: hl) col
                                        then "#FF0000" else "#AAAAAA")
                            (pv_columns p)) j = Some "#FF0000")
            /\ (~ In n (h :: hl) ->
                nth_error (map (fun col => if isin_name (h :: hl) col
                                           then "#FF0000" else "#AAAAAA")
                               (pv_columns p)) j = Some "#AAAAAA")).
  { intros j n Hj. rewrite nth_error_map, Hj. cbn [option_map].
    destruct (isin_name (h :: hl) n) eqn:E.
    - apply isin_name_In in E. split; [reflexivity | contradiction].
    - split; [|reflexivity]. intros Hin. apply isin_name_In in Hin. congruence. }
  split; [now rewrite length_map|]. split; [exact Hcol|].
  intros n r Hhl Hsel Hr En.
  assert (Hin : In n (pv_columns p)).
  { destruct (pivot_table_columns (games_selected df_filtered selected))
      as [_ Hcols].
    apply Hcols, in_map_iff. exists r. split; [exact En|].
    apply games_selected_In. subst n. auto. }
  apply In_nth_error in Hin as (j & Hj).
  exists j. split; [exact Hj|]. now apply (Hcol j n Hj).
Qed.

Lemma line_colors_by_column_witness :
  exists colors,
    line_colors ["Final Titan"]
      (pivoted (load_and_prepare_data with_final_titan) ["Azul"; "Final Titan"])
    = Some colors
    /\ exists j, nth_error colors j = Some "#FF0000".
Proof.
  destruct (line_colors_by_column (load_and_prepare_data with_final_titan)
              ["Azul"; "Final Titan"] ["Final Titan"])
    as [_ H].
  destruct H as (colors & E & _ & _ & Hred); [discriminate|].
  exists colors. split; [exact E|].
  destruct (Hred "Final Titan" (mkRow 4 2 "Final Titan" 2024 5 17 7))
    as (j & _ & Hj); [simpl; tauto | simpl; tauto | vm_compute; tauto
                     | reflexivity |].
  exists j. exact Hj.
Defined.

(** ** The chart of By Rank mode *)

Lemma tag_highlight_row (hl : list string) (r : Row) :
  tagged_row (tag_highlight hl r) = r.
Proof. reflexivity. Qed.

(** Lines 164-221: with no highlight enabled, the base set is the rows of
    the range whose rank is selected, each once; every one of them is in the
    line layer, tagged with its rank written in decimal, the colour is taken
    from the rank, and the overlay is empty. *)
Theorem rank_chart_no_highlight (df_filtered : DataFrame) (sel : list Z) :
  let chart := rank_chart df_filtered sel [] in
  highlight_layer chart = []
  /\ rank_layer_color chart = ColorByRank
  /\ rank_layer chart
     = map (fun r => mkTagged r (str_of_Z (rank r)))
           (ranks_selected df_filtered sel [])
  /\ NoDup (ranks_selected df_filtered sel [])
  /\ (forall r, In r (ranks_selected df_filtered sel [])
                <-> In r df_filtered /\ In (rank r) sel).
Proof.
  intros chart. unfold chart, rank_chart.
  cbn [highlight_layer rank_layer rank_layer_color is_nonempty].
  split; [apply filter_nil; reflexivity|]. split; [reflexivity|].
  split; [|split].
  - rewrite filter_all; [reflexivity|].
    intros t Ht. apply in_map_iff in Ht as (r & <- & Hr).
    apply ranks_selected_In in Hr as [_ [Hr|[]]].
    now apply isin_rank_In.
  - apply (drop_duplicates_id_NoDup row_eqb row_eqb_eq).
  - intros r. rewrite ranks_selected_In. simpl. tauto.
Qed.

(** Lines 170-173 and 211-220: with some highlight enabled, the colour is
    taken from the tag; a row drawn by either layer is tagged "Highlighted" if
    its name is an enabled highlighted game and "Normal" if not; and the
    overlay draws exactly the rows tagged "Highlighted". *)
Theorem highlight_tag_overlay (df_filtered : DataFrame) (sel : list Z)
  (hl : list string) (t : TaggedRow) :
  hl <> [] ->
  In t (rank_layer (rank_chart df_filtered sel hl))
  \/ In t (highlight_layer (rank_chart df_filtered sel hl)) ->
  rank_layer_color (rank_chart df_filtered sel hl) = ColorByHighlight
  /\ (In (name (tagged_row t)) hl -> highlight t = "Highlighted")
  /\ (~ In (name (tagged_row t)) hl -> highlight t = "Normal")
  /\ (In t (highlight_layer (rank_chart df_filtered sel hl))
      <-> highlight t = "Highlighted").
Proof.
  intros Hne Ht.
  assert (Hbase : exists r, t = tag_highlight hl r
                            /\ In r (ranks_selected df_filtered sel hl)).
  { destruct Ht as [Ht|Ht]; apply rank_chart_layers in Ht as (r & E & Hr & _);
      eauto. }
  destruct Hbase as (r & -> & Hr).
  destruct hl as [|h hl]; [congruence|].
  split; [reflexivity|].
  rewrite tag_highlight_row. unfold tag_highlight at 1 2 4.
  cbn [is_nonempty highlight].
  destruct (isin_name (h :: hl) (name r)) eqn:E.
  - apply isin_name_In in E.
    split; [reflexivity|]. split; [contradiction|].
    split; [reflexivity|]. intros _.
    apply rank_chart_layers. eauto.
  - assert (Hnot : ~ In (name r) (h :: hl))
      by (intros H; apply isin_name_In in H; congruence).
    split; [contradiction|]. split; [reflexivity|].
    split; [|discriminate].
    intros Hin. apply rank_chart_layers in Hin as (r' & E' & _ & Hin').
    apply (f_equal tagged_row) in E'. rewrite !tag_highlight_row in E'.
    subst r'. contradiction.
Qed.

Lemma highlight_tag_overlay_witness :
  In (tag_highlight ["Final Titan"] (mkRow 4 2 "Final Titan" 2024 5 17 7))
     (highlight_layer (rank_chart (load_and_prepare_data with_final_titan)
                                  [1; 2] ["Final Titan"]))
  /\ highlight (tag_highlight ["Final Titan"]
                  (mkRow 4 2 "Final Titan" 2024 5 17 7))
     = "Highlighted".
Proof.
  assert (Hin : In (tag_highlight ["Final Titan"]
                      (mkRow 4 2 "Final Titan" 2024 5 17 7))
                   (highlight_layer
                      (rank_chart (load_and_prepare_data with_final_titan)
                                  [1; 2] ["Final Titan"])))
    by (vm_compute; tauto).
  assert (Hne : ["Final Titan"] <> []) by discriminate.
  split; [exact Hin|].
  pose proof (highlight_tag_overlay _ _ _ _ Hne (or_intror Hin))
    as (_ & _ & _ & H).
  exact (proj1 H Hin).
Defined.

(** ** The session across runs *)

Lemma graph_section_inv (df : DataFrame) (w : Widgets) (st : SessionState)
  (out : list UICmd) (st' : SessionState) :
  graph_section df w st = Some (out, st') ->
  exists start_date end_date errors,
    safe_get_user_data df w = Some (start_date, end_date, errors)
    /\ st' = match widget ByGame (w_mode w) with
             | ByGame =>
                 mkSession (Some (games_session df end_date w st))
                           (selected_ranks st)
             | ByRank =>
                 mkSession (selected_games st) (Some (ranks_session df w st))
             end.
Proof.
  unfold graph_section.
  destruct (safe_get_user_data df w) as [[[s e] errors]|]; [|discriminate].
  intros H. exists s, e, errors. split; [reflexivity|].
  destruct (widget ByGame (w_mode w)).
  - unfold by_game in H.
    destruct (is_nonempty (effective_games df e w st)); now injection H.
  - unfold by_rank in H.
    destruct (is_nonempty (widget (ranks_session df w st) (w_ranks w)));
      now injection H.
Qed.

(** Lines 84-97 and 143-153: a run writes the selection of its own mode into
    the session and leaves the selection of the other mode as it found it;
    and a following run in the same mode in which no button is clicked leaves
    the session as the first run left it, whatever the date range and the
    multiselect are then. *)
Theorem selection_persists (df : DataFrame) (w1 w2 : Widgets)
  (st st1 st2 : SessionState) (out1 out2 : list UICmd) :
  graph_section df w1 st = Some (out1, st1) ->
  graph_section df w2 st1 = Some (out2, st2) ->
  widget ByGame (w_mode w2) = widget ByGame (w_mode w1) ->
  no_button w2 ->
  st2 = st1
  /\ (widget ByGame (w_mode w1) = ByGame -> selected_ranks st1 = selected_ranks st)
  /\ (widget ByGame (w_mode w1) = ByRank -> selected_games st1 = selected_games st).
Proof.
  intros H1 H2 Hm (Ha & Hn & H7 & H15 & Hra & Hrn & Hrd).
  apply graph_section_inv in H1 as (s1 & e1 & err1 & _ & E1).
  apply graph_section_inv in H2 as (s2 & e2 & err2 & _ & E2).
  rewrite Hm in E2.
  destruct (widget ByGame (w_mode w1)); subst st1 st2; simpl.
  - split; [|split; [reflexivity | discriminate]].
    unfold games_session at 1. rewrite Ha, Hn, H7, H15. reflexivity.
  - split; [|split; [discriminate | reflexivity]].
    unfold ranks_session at 1. rewrite Hra, Hrn, Hrd. reflexivity.
Qed.

Lemma selection_persists_witness :
  exists out1 st1 out2 st2,
    graph_section (load_and_prepare_data two_games_three_days) untouched
                  fresh_session
    = Some (out1, st1)
    /\ graph_section (load_and_prepare_data two_games_three_days) inverted_range
                     st1
       = Some (out2, st2)
    /\ selected_games st1 = Some ["Azul"; "Kings Hall"]
    /\ st2 = st1.
Proof.
  do 4 eexists.
  assert (H1 : graph_section (load_and_prepare_data two_games_three_days)
                 untouched fresh_session
               = Some (_, mkSession (Some ["Azul"; "Kings Hall"]) None))
    by reflexivity.
  assert (H2 : graph_section (load_and_prepare_data two_games_three_days)
                 inverted_range (mkSession (Some ["Azul"; "Kings Hall"]) None)
               = Some (_, _))
    by reflexivity.
  split; [exact H1|]. split; [exact H2|]. split; [reflexivity|].
  apply (selection_persists _ _ _ _ _ _ _ _ H1 H2); [reflexivity|].
  repeat split.
Defined.

(** ** More on the prepared table *)



Lemma rows_of_game_by_date (csv : list RawRow) (g : Z) :
  StronglySorted (fun a b => date a <= date b)
                 (rows_of_game g (diffed_frame csv)).
Proof.
  eapply StronglySorted_weaken.
  - apply StronglySorted_filter, diffed_frame_sorted.
  - intros x y Hx Hy H. apply game_date_le_same_game; [exact H|].
    apply filter_In in Hx as [_ Hx]. apply filter_In in Hy as [_ Hy].
    apply Z.eqb_eq in Hx, Hy. congruence.
Qed.









Lemma diffs_from_nonneg (xs : list Z) :
  forall v, StronglySorted Z.le (v :: xs) ->
            Forall (fun d => 0 <= d) (diffs_from v xs).
Proof.
  induction xs as [|x xs IH]; intros v Hs; simpl; [constructor|].
  inversion Hs as [|? ? Hs' Hall]; subst.
  constructor.
  - inversion Hall; subst. lia.
  - now apply IH.
Qed.

Lemma first_difference_nonneg (xs : list Z) :
  StronglySorted Z.le xs -> Forall (fun d => 0 <= d) (first_difference xs).
Proof.
  destruct xs as [|x xs]; simpl; intros Hs; constructor; [lia|].
  now apply diffs_from_nonneg.
Qed.

(** Lines 14-15: if, within every game of the file, views never decrease as
    the date grows, then no row of the prepared table has a negative
    [views_diff]. *)
Theorem views_diff_nonnegative (csv : list RawRow) (r : Row) :
  views_monotone csv ->
  In r (load_and_prepare_data csv) ->
  0 <= views_diff r.
Proof.
  intros Hmono Hr. apply load_and_prepare_data_incl in Hr.
  set (rows := rows_of_game (game_id r) (diffed_frame csv)).
  assert (Hin : In r rows)
    by (apply filter_In; split; [exact Hr | apply Z.eqb_refl]).
  assert (Hviews : StronglySorted Z.le (map views rows)).
  { apply StronglySorted_map_iff.
    eapply StronglySorted_weaken; [apply rows_of_game_by_date|].
    intros x y Hx Hy Hd.
    apply filter_In in Hx as [Hx Gx]. apply filter_In in Hy as [Hy Gy].
    apply Z.eqb_eq in Gx, Gy.
    apply diffed_frame_raw in Hx as (rx & Hrx & Ex).
    apply diffed_frame_raw in Hy as (ry & Hry & Ey).
    cbv beta in Hd.
    assert (Fx : raw_game_id rx = game_id x /\ raw_date rx = date x
                 /\ raw_views rx = views x).
    { change (game_id x) with (raw_game_id (raw_of x)).
      change (date x) with (raw_date (raw_of x)).
      change (views x) with (raw_views (raw_of x)).
      rewrite Ex. simpl. auto. }
    assert (Fy : raw_game_id ry = game_id y /\ raw_date ry = date y
                 /\ raw_views ry = views y).
    { change (game_id y) with (raw_game_id (raw_of y)).
      change (date y) with (raw_date (raw_of y)).
      change (views y) with (raw_views (raw_of y)).
      rewrite Ey. simpl. auto. }
    destruct Fx as (Fx1 & Fx2 & Fx3). destruct Fy as (Fy1 & Fy2 & Fy3).
    rewrite <- Fx3, <- Fy3.
    apply Hmono; [exact Hrx | exact Hry | congruence | lia]. }
  apply first_difference_nonneg in Hviews.
  unfold rows in Hviews. rewrite <- diffed_frame_first_difference in Hviews.
  rewrite Forall_forall in Hviews. apply Hviews.
  now apply in_map.
Qed.

Lemma views_diff_nonnegative_witness :
  In (mkRow 2 3 "Kings Hall" 2021 2 95 15)
     (load_and_prepare_data two_games_three_days)
  /\ 0 <= 15.
Proof.
  assert (Hin : In (mkRow 2 3 "Kings Hall" 2021 2 95 15)
                   (load_and_prepare_data two_games_three_days))
    by (vm_compute; tauto).
  split; [exact Hin|].
  apply (views_diff_nonnegative two_games_three_days _) in Hin; [exact Hin|].
  intros a b Ha Hb. simpl in Ha, Hb.
  repeat (destruct Ha as [<-|Ha]);
    try (destruct Ha);
    repeat (destruct Hb as [<-|Hb]);
    try (destruct Hb); simpl; lia.
Defined.

Lemma str_replace_apostrophe_fixed (s : string) :
  str_replace_apostrophe s = s <-> ~ has_apostrophe s.
Proof.
  split.
  - intros <-. apply str_replace_apostrophe_clean.
  - unfold has_apostrophe. induction s as [|c s IH]; simpl; [reflexivity|].
    intros H. destruct (Ascii.eqb_spec c "'"%char) as [->|_]; [tauto|].
    f_equal. apply IH. tauto.
Qed.

Lemma sanitize_name_idempotent (r : RawRow) :
  sanitize_name (sanitize_name r) = sanitize_name r.
Proof.
  unfold sanitize_name. simpl. f_equal.
  apply str_replace_apostrophe_fixed, str_replace_apostrophe_clean.
Qed.

(** Line 13: taking the apostrophes out never lengthens a name, changes a
    name only if it has an apostrophe, and is idempotent; so preparing a file
    whose names were already sanitized gives the table that preparing the
    original file gives. *)
Theorem sanitize_idempotent (s : string) (csv : list RawRow) :
  (String.length (str_replace_apostrophe s) <= String.length s)%nat
  /\ (str_replace_apostrophe s = s <-> ~ has_apostrophe s)
  /\ str_replace_apostrophe (str_replace_apostrophe s) = str_replace_apostrophe s
  /\ load_and_prepare_data (map sanitize_name csv) = load_and_prepare_data csv.
Proof.
  split; [|split; [apply str_replace_apostrophe_fixed|split]].
  - induction s as [|c s IH]; simpl; [lia|].
    destruct (Ascii.eqb c "'"%char); simpl; lia.
  - apply str_replace_apostrophe_fixed, str_replace_apostrophe_clean.
  - unfold load_and_prepare_data, diffed_frame, sorted_frame.
    rewrite map_map.
    rewrite (map_ext _ sanitize_name) by apply sanitize_name_idempotent.
    reflexivity.
Qed.

(** Lines 17-19: the prepared table has a row exactly when the file has rows
    on two different dates; a file that covers a single day, or none, is
    prepared into the empty table. *)
Theorem load_and_prepare_data_nonempty_iff (csv : list RawRow) :
  load_and_prepare_data csv <> []
  <-> exists a b, In a csv /\ In b csv /\ raw_date a < raw_date b.
Proof.
  destruct csv as [|r0 csv0].
  { split; [intros H; now destruct H | intros (a & b & [] & _)]. }
  remember (r0 :: csv0) as csv eqn:Ecsv.
  assert (Hne : map raw_date csv <> [])
    by (rewrite Ecsv; discriminate).
  clear Ecsv.
  destruct (series_min_nonempty _ Hne) as (m & Em).
  apply series_min_spec in Em as [Hin Hmin].
  assert (Hmin' : forall r, In r csv -> m <= raw_date r)
    by (intros r Hr; apply Hmin; now apply in_map).
  rewrite (load_and_prepare_data_filter csv m Hin Hmin').
  split.
  - destruct (filter _ (diffed_frame csv)) as [|r l] eqn:E; [congruence|].
    intros _.
    assert (Hr : In r (filter (fun r => m + 1 <=? date r) (diffed_frame csv)))
      by (rewrite E; now left).
    apply filter_In in Hr as [Hr Hd]. apply Z.leb_le in Hd.
    apply diffed_frame_raw in Hr as (b & Hb & Eb).
    apply in_map_iff in Hin as (a & Ea & Ha).
    exists a, b. split; [exact Ha|]. split; [exact Hb|].
    assert (raw_date b = date r)
      by (change (date r) with (raw_date (raw_of r)); now rewrite Eb).
    lia.
  - intros (a & b & Ha & Hb & Hlt) Hnil.
    assert (Hsb : In (sanitize_name b) (map raw_of (diffed_frame csv))).
    { eapply Permutation_in; [apply Permutation_sym, diffed_frame_perm|].
      now apply in_map. }
    apply in_map_iff in Hsb as (r & Er & Hr).
    assert (Hd : date r = raw_date b)
      by (change (date r) with (raw_date (raw_of r)); now rewrite Er).
    assert (Hf : In r (filter (fun r => m + 1 <=? date r) (diffed_frame csv))).
    { apply filter_In. split; [exact Hr|]. apply Z.leb_le.
      specialize (Hmin' a Ha). lia. }
    rewrite Hnil in Hf. destruct Hf.
Qed.
